(** * Businesses / reviews REST services: a shallow embedding

    The repository holds four small Flask services:
    - Assignment 2: businesses and reviews over Cloud Datastore (module [GAE]);
    - Assignment 3: the same routes over MySQL (module [MySQL]);
    - Assignment 4: the OAuth login flow with a stored state token
      (module [OAuth]);
    - Assignment 5: businesses over Datastore behind a bearer JWT
      (module [JWT]).

    Each handler becomes a function from the request and the store to a
    response and the next store.  The first part of the file holds the
    embedding, the second part the properties. *)

From Stdlib Require Import ZArith Lia Ascii.
From stdpp Require Import base option list strings pretty gmap fin_maps sorting.

(** ** Python values and JSON bodies *)

Module Py.

(** The JSON scalars the handlers pass around: [None]/null, integers and
    strings. *)
Inductive value :=
| VNull
| VInt (n : Z)
| VStr (s : string).

#[global] Instance value_eq_dec : EqDecision value.
Proof. solve_decision. Defined.

(** A JSON object / Python dict with string keys. *)
Abbreviation obj := (gmap string value).

(** [str(v)], as an f-string formats a value. *)
Definition py_str (v : value) : string :=
  match v with
  | VNull => "None"
  | VInt n => pretty n
  | VStr s => s
  end.

(** [repr] of a list of plain field names, as an f-string formats a list. *)
Definition py_repr_fields (l : list string) : string :=
  "[" +:+ String.concat ", " ((λ f, "'" +:+ f +:+ "'") <$> l) +:+ "]".

(** [d.get(k)]: the value, or [None] when the key is absent. *)
Definition dict_get (d : obj) (k : string) : value :=
  default VNull (d !! k).

(** Truthiness of a dict-like object: empty is falsy. *)
Definition dict_truthy (d : obj) : bool := bool_decide (d ≠ ∅).

(** Truthiness of [x] where [x] is [None] or a dict-like object. *)
Definition opt_truthy (o : option obj) : bool :=
  match o with
  | Some d => dict_truthy d
  | None => false
  end.

(** Truthiness of a scalar: [None], [0] and [''] are falsy. *)
Definition value_truthy (v : value) : bool :=
  match v with
  | VNull => false
  | VInt n => negb (n =? 0)%Z
  | VStr s => negb (String.eqb s "")
  end.

(** [[f for f in required_fields if f not in data]] *)
Definition missing (data : obj) (required_fields : list string) : list string :=
  filter (λ field, data !! field = None) required_fields.

(** Response bodies. *)
Inductive body :=
| BEmpty                                  (* '' *)
| BText (s : string)                      (* a plain string or rendered page *)
| BError (msg : string)                   (* {"Error": msg} *)
| BObj (o : obj)                          (* a JSON object *)
| BList (l : list obj)                    (* a JSON array of objects *)
| BPage (entries : list obj) (next : option string)
                                          (* {"entries": [...], "next": ...} *)
| BException.                             (* the text of a raised exception *)

Definition response : Type := body * Z.

Definition status (r : response) : Z := r.2.

End Py.

(** ** Cloud Datastore, as the handlers use it *)

Module Datastore.
Import Py.

(** Entities of one kind.  Every entity is created from a partial key, so
    its key carries a numeric id. *)
Abbreviation kind := (gmap Z obj).

Inductive key :=
| KId (n : Z)
| KName (s : string).

(** [client.key(kind, v)]: an integer gives an id key, a string a name key,
    anything else raises [ValueError]. *)
Definition client_key (v : value) : option key :=
  match v with
  | VInt n => Some (KId n)
  | VStr s => Some (KName s)
  | VNull => None
  end.

(** [client.get(key)] *)
Definition get (m : kind) (k : key) : option obj :=
  match k with
  | KId n => m !! n
  | KName _ => None
  end.

(** [client.put(entity)] for an entity whose partial key the store completes
    with [new_id]. *)
Definition put (new_id : Z) (e : obj) (m : kind) : kind := <[new_id := e]> m.

(** One equality filter of a query. *)
Definition matches (filters : list (string * value)) (r : Z * obj) : Prop :=
  Forall (λ f : string * value, r.2 !! f.1 = Some f.2) filters.

#[global] Instance matches_dec filters r : Decision (matches filters r).
Proof. unfold matches. apply _. Defined.

(** [list(query.fetch())] after [add_filter(f, '=', v)] for each filter. *)
Definition fetch (filters : list (string * value)) (m : kind) : list (Z * obj) :=
  filter (matches filters) (map_to_list m).

(** [for e in results: client.delete(e.key)] *)
Definition delete_all (results : list (Z * obj)) (m : kind) : kind :=
  foldl (λ acc r, delete r.1 acc) m results.

End Datastore.

(** ** Assignment 2: REST API over Datastore *)

Module GAE.
Import Py Datastore.

Record store := Store {
  businesses : gmap Z obj;
  reviews : gmap Z obj
}.

Definition empty_store : store := Store ∅ ∅.

Definition CREATED : Z := 201.
Definition OK : Z := 200.
Definition NO_CONTENT : Z := 204.
Definition BAD_REQUEST : Z := 400.
Definition NOT_FOUND : Z := 404.
Definition CONFLICT : Z := 409.

(** What Flask answers when a handler raises. *)
Definition crashed : response := (BException, 500%Z).

Definition validate_fields (data : obj) (required_fields : list string) : list string :=
  missing data required_fields.

Definition entity_not_found (entity : string) : response :=
  (BError ("No " +:+ entity +:+ " with this business_id exists"), NOT_FOUND).

Definition review_not_found (entity : string) : response :=
  (BError ("No " +:+ entity +:+ " with this review_id exists"), NOT_FOUND).

Definition missing_fields_response (missing_fields : list string) : response :=
  (BError "The request body is missing at least one of the required attributes",
   BAD_REQUEST).

Definition already_reviewed : string :=
  "You have already submitted a review for this business. You can update your previous review, or delete it and submit a new review".

(** POST /businesses *)
Definition create_business (new_id : Z) (data : obj) (s : store) : response * store :=
  let required_fields :=
    ["owner_id"; "name"; "street_address"; "state"; "city"; "zip_code"] in
  match validate_fields data required_fields with
  | (_ :: _) as missing_fields => (missing_fields_response missing_fields, s)
  | [] =>
      let new_business := data in
      let s' := Store (put new_id new_business (businesses s)) (reviews s) in
      (BObj (<["id" := VInt new_id]> new_business), CREATED, s')
  end.

(** GET /businesses/<int:business_id> *)
Definition get_business_by_id (business_id : Z) (s : store) : response :=
  let business := get (businesses s) (KId business_id) in
  if negb (opt_truthy business) then entity_not_found "business"
  else (BObj (<["id" := VInt business_id]> (default ∅ business)), OK).


(** DELETE /businesses/<int:business_id> *)
Definition delete_business_by_id (business_id : Z) (s : store) : response * store :=
  let business := get (businesses s) (KId business_id) in
  if negb (opt_truthy business) then (entity_not_found "business", s)
  else
    let found := fetch [("business_id", VInt business_id)] (reviews s) in
    let reviews' := delete_all found (reviews s) in
    ((BEmpty, NO_CONTENT), Store (delete business_id (businesses s)) reviews').

(** PUT /businesses/<int:business_id> *)
Definition edit_business (business_id : Z) (data : obj) (s : store) : response * store :=
  let business := get (businesses s) (KId business_id) in
  if negb (opt_truthy business) then (entity_not_found "business", s)
  else
    let required_fields := ["owner_id"; "name"; "street_address"; "city"; "zip_code"] in
    match validate_fields data required_fields with
    | (_ :: _) as missing_fields =>
        (entity_not_found (py_repr_fields missing_fields), s)
    | [] =>
        let business' := data ∪ default ∅ business in
        ((BObj (<["id" := VInt business_id]> business'), OK),
         Store (<[business_id := business']> (businesses s)) (reviews s))
    end.

(** GET /owners/<int:owner_id>/businesses *)
Definition list_businesses_for_owner (owner_id : Z) (s : store) : response :=
  let found := fetch [("owner_id", VInt owner_id)] (businesses s) in
  (BList ((λ r : Z * obj, <["id" := VInt r.1]> r.2) <$> found), OK).

(** POST /reviews *)
Definition create_review (new_id : Z) (data : obj) (s : store) : response * store :=
  let required_fields := ["user_id"; "business_id"; "stars"] in
  match validate_fields data required_fields with
  | (_ :: _) as missing_fields => (missing_fields_response missing_fields, s)
  | [] =>
      match client_key (dict_get data "business_id") with
      | None => (crashed, s)
      | Some business_key =>
          let business := get (businesses s) business_key in
          if negb (opt_truthy business) then (entity_not_found "business", s)
          else
            let existing_review :=
              take 1 (fetch [("user_id", dict_get data "user_id");
                             ("business_id", dict_get data "business_id")]
                            (reviews s)) in
            match existing_review with
            | _ :: _ => ((BError already_reviewed, CONFLICT), s)
            | [] =>
                let review := data in
                ((BObj (<["id" := VInt new_id]> review), CREATED),
                 Store (businesses s) (put new_id review (reviews s)))
            end
      end
  end.

(** GET /reviews/<int:review_id> *)
Definition get_review_by_id (review_id : Z) (s : store) : response :=
  let review := get (reviews s) (KId review_id) in
  if negb (opt_truthy review) then review_not_found "review"
  else (BObj (<["id" := VInt review_id]> (default ∅ review)), OK).

(** PUT /reviews/<int:review_id> *)
Definition update_review (review_id : Z) (data : obj) (s : store) : response * store :=
  let required_fields := ["stars"] in
  match validate_fields data required_fields with
  | (_ :: _) as missing_fields => (missing_fields_response missing_fields, s)
  | [] =>
      let review := get (reviews s) (KId review_id) in
      if negb (opt_truthy review) then (review_not_found "review", s)
      else
        let old := default ∅ review in
        let changes : obj :=
          {[ "stars" := dict_get data "stars";
             "review_text" := default (dict_get old "review_text")
                                      (data !! "review_text") ]} in
        let review' := changes ∪ old in
        ((BObj (<["id" := VInt review_id]> review'), OK),
         Store (businesses s) (<[review_id := review']> (reviews s)))
  end.

(** DELETE /reviews/<int:review_id> *)
Definition delete_review (review_id : Z) (s : store) : response * store :=
  let review := get (reviews s) (KId review_id) in
  if negb (opt_truthy review) then (review_not_found "review", s)
  else ((BEmpty, NO_CONTENT), Store (businesses s) (delete review_id (reviews s))).

(** GET /users/<int:user_id>/reviews *)
Definition list_reviews_for_user (user_id : Z) (s : store) : response :=
  let found := fetch [("user_id", VInt user_id)] (reviews s) in
  (BList ((λ r : Z * obj, <["id" := VInt r.1]> r.2) <$> found), OK).

(** The requests that change the store, and the stores the service can be
    in after any sequence of them, starting empty. *)
Inductive request :=
| PostBusiness (new_id : Z) (data : obj)
| DeleteBusiness (business_id : Z)
| PutBusiness (business_id : Z) (data : obj)
| PostReview (new_id : Z) (data : obj)
| PutReview (review_id : Z) (data : obj)
| DeleteReview (review_id : Z).

Definition handle (r : request) (s : store) : response * store :=
  match r with
  | PostBusiness new_id data => create_business new_id data s
  | DeleteBusiness business_id => delete_business_by_id business_id s
  | PutBusiness business_id data => edit_business business_id data s
  | PostReview new_id data => create_review new_id data s
  | PutReview review_id data => update_review review_id data s
  | DeleteReview review_id => delete_review review_id s
  end.

Definition run (rs : list request) (s : store) : store :=
  foldl (λ acc r, (handle r acc).2) s rs.

Definition reachable (s : store) : Prop := ∃ rs, run rs empty_store = s.

(** Every stored entity has at least one property, and every stored review
    names, by integer id, a business that is stored. *)
Definition store_ok (s : store) : Prop :=
  (∀ k e, businesses s !! k = Some e → e ≠ ∅) ∧
  (∀ k e, reviews s !! k = Some e →
     e ≠ ∅ ∧ ∃ b, e !! "business_id" = Some (VInt b) ∧ is_Some (businesses s !! b)).

End GAE.

(** ** Assignment 3: REST API over MySQL *)

Module MySQL.
Import Py.

(** Table [businesses]. *)
Record business_row := BusinessRow {
  b_id : Z;                    (* INT NOT NULL AUTO_INCREMENT, PRIMARY KEY *)
  b_owner_id : Z;              (* INT NOT NULL *)
  b_name : string;             (* VARCHAR(50) NOT NULL *)
  b_street_address : string;   (* VARCHAR(100) NOT NULL *)
  b_city : string;             (* VARCHAR(50) NOT NULL *)
  b_state : string;            (* CHAR(2) NOT NULL *)
  b_zip_code : string          (* CHAR(5) NOT NULL *)
}.

(** Table [review]. *)
Record review_row := ReviewRow {
  r_id : Z;                    (* INT NOT NULL AUTO_INCREMENT, PRIMARY KEY *)
  r_user_id : Z;               (* INT NOT NULL *)
  r_business_id : Z;           (* INT NOT NULL, REFERENCES businesses(id) *)
  r_stars : Z;                 (* INT NOT NULL *)
  r_review_text : option string (* VARCHAR(1000) *)
}.

(** The database: both tables in storage order and their AUTO_INCREMENT
    counters. *)
Record db := Db {
  businesses : list business_row;
  review : list review_row;
  next_business_id : Z;
  next_review_id : Z
}.

(** What the Python runtime and the database driver do with a JSON value;
    [None] stands for a raised exception.  The handlers are modelled for
    every such behaviour. *)
Record driver := Driver {
  py_int : value → option Z;
    (* int(x) *)
  bind_int : value → option Z;
    (* the value an INT NOT NULL column receives from a bound parameter *)
  bind_str : nat → value → option string;
    (* the value a CHAR(n)/VARCHAR(n) NOT NULL column receives *)
  bind_text : value → option (option string);
    (* the value the nullable VARCHAR(1000) column receives *)
  as_int : value → option Z
    (* col = :param on an INT column: the integer a row must hold to match,
       if any row can match *)
}.

(** The request: the URLs Flask derives from it. *)
Record context := Context {
  base_url : string;
  host_url : string
}.

Fixpoint lstrip_slash (s : string) : string :=
  match s with
  | String "/"%char s' => lstrip_slash s'
  | _ => s
  end.

(** [s.rstrip('/')] *)
Definition rstrip_slash (s : string) : string :=
  String.rev (lstrip_slash (String.rev s)).

(** [Result.one_or_none()]: more than one row raises. *)
Definition one_or_none {A} (rows : list A) : option (option A) :=
  match rows with
  | [] => Some None
  | [x] => Some (Some x)
  | _ => None
  end.

(** [ORDER BY id] *)
Definition id_le (a b : business_row) : Prop := (b_id a ≤ b_id b)%Z.

#[global] Instance id_le_dec : RelDecision id_le.
Proof. intros a b. unfold id_le. apply _. Defined.

Definition order_by_id (rows : list business_row) : list business_row :=
  merge_sort id_le rows.

Definition missing_attributes : string :=
  "The request body is missing at least one of the required attributes".
Definition no_business : string := "No business with this business_id exists".
Definition no_review : string := "No review with this review_id exists".
Definition already_reviewed : string :=
  "You have already submitted a review for this business. You can update your previous review, or delete it and submit a new review".

Definition text_value (t : option string) : value :=
  match t with
  | Some s => VStr s
  | None => VNull
  end.

Section handlers.
Variable drv : driver.
Variable ctx : context.

(** The JSON object built from a [businesses] row; [int(zip_code)] may
    raise. *)
Definition business_json (self : string) (b : business_row) : option obj :=
  zip ← py_int drv (VStr (b_zip_code b));
  Some (list_to_map
    [("id", VInt (b_id b)); ("owner_id", VInt (b_owner_id b));
     ("name", VStr (b_name b)); ("street_address", VStr (b_street_address b));
     ("city", VStr (b_city b)); ("state", VStr (b_state b));
     ("zip_code", VInt zip); ("self", VStr self)]).

(** The JSON object built from a [review] row. *)
Definition review_json (self : string) (r : review_row) : obj :=
  list_to_map
    [("id", VInt (r_id r)); ("user_id", VInt (r_user_id r));
     ("stars", VInt (r_stars r)); ("review_text", text_value (r_review_text r));
     ("self", VStr self);
     ("business", VStr (rstrip_slash (host_url ctx) +:+ "/businesses/"
                         +:+ pretty (r_business_id r)))].

(** The parameters of the INSERT and UPDATE statements on [businesses]. *)
Definition business_params (id : Z) (content : obj) : option business_row :=
  zip ← py_int drv (dict_get content "zip_code");
  owner_id ← bind_int drv (dict_get content "owner_id");
  name ← bind_str drv 50 (dict_get content "name");
  street_address ← bind_str drv 100 (dict_get content "street_address");
  city ← bind_str drv 50 (dict_get content "city");
  state ← bind_str drv 2 (dict_get content "state");
  zip_code ← bind_str drv 5 (VInt zip);
  Some (BusinessRow id owner_id name street_address city state zip_code).

(** The body both POST and PUT /businesses answer with. *)
Definition business_echo (id : Z) (content : obj) (self : string) : option obj :=
  zip ← py_int drv (dict_get content "zip_code");
  Some (list_to_map
    [("id", VInt id); ("owner_id", dict_get content "owner_id");
     ("name", dict_get content "name");
     ("street_address", dict_get content "street_address");
     ("city", dict_get content "city"); ("state", dict_get content "state");
     ("zip_code", VInt zip); ("self", VStr self)]).

Definition business_fields : list string :=
  ["owner_id"; "name"; "street_address"; "city"; "state"; "zip_code"].

(** POST /businesses *)
Definition create_businesses (content : obj) (d : db) : response * db :=
  match missing content business_fields with
  | _ :: _ => ((BError missing_attributes, 400%Z), d)
  | [] =>
      let business_id := next_business_id d in
      match business_params business_id content,
            business_echo business_id content
              (base_url ctx +:+ "/" +:+ pretty business_id) with
      | Some row, Some o =>
          ((BObj o, 201%Z),
           Db (businesses d ++ [row]) (review d)
              (next_business_id d + 1) (next_review_id d))
      | _, _ => ((BError "Unable to create business", 500%Z), d)
      end
  end.

(** SELECT ... FROM businesses WHERE id = :business_id *)
Definition select_business (business_id : Z) (d : db) : list business_row :=
  filter (λ b, b_id b = business_id) (businesses d).

(** GET /businesses/<int:business_id> *)
Definition get_business (business_id : Z) (d : db) : response :=
  match one_or_none (select_business business_id d) with
  | None => (BException, 500%Z)
  | Some None => (BError no_business, 404%Z)
  | Some (Some business) =>
      match business_json (base_url ctx) business with
      | Some o => (BObj o, 200%Z)
      | None => (BException, 500%Z)
      end
  end.

(** SELECT ... FROM businesses ORDER BY id LIMIT :limit OFFSET :offset;
    a negative LIMIT or OFFSET is rejected by the server. *)
Definition select_page (offset limit : Z) (d : db) : option (list business_row) :=
  if decide (0 ≤ limit ∧ 0 ≤ offset)%Z
  then Some (take (Z.to_nat limit) (drop (Z.to_nat offset) (order_by_id (businesses d))))
  else None.

(** GET /businesses?offset=..&limit=.. *)
Definition list_businesses (offset limit : Z) (d : db) : response :=
  match select_page offset limit d with
  | None => (BException, 500%Z)
  | Some rows =>
      match mapM (λ b, business_json (base_url ctx +:+ "/" +:+ pretty (b_id b)) b) rows with
      | None => (BException, 500%Z)
      | Some business_list =>
          let next_url :=
            if decide (Z.of_nat (length rows) = limit)
            then Some (base_url ctx +:+ "?offset=" +:+ pretty (offset + limit)%Z
                       +:+ "&limit=" +:+ pretty limit)
            else None in
          (BPage business_list next_url, 200%Z)
      end
  end.

(** PUT /businesses/<int:business_id> *)
Definition edit_business (business_id : Z) (content : obj) (d : db) : response * db :=
  match missing content business_fields with
  | _ :: _ => ((BError missing_attributes, 400%Z), d)
  | [] =>
      match one_or_none (select_business business_id d) with
      | None => ((BException, 500%Z), d)
      | Some None => ((BError no_business, 404%Z), d)
      | Some (Some existing_business) =>
          match business_params business_id content,
                business_echo business_id content (base_url ctx) with
          | Some row, Some o =>
              ((BObj o, 200%Z),
               Db ((λ b, if decide (b_id b = business_id) then row else b)
                     <$> businesses d)
                  (review d) (next_business_id d) (next_review_id d))
          | _, _ => ((BException, 500%Z), d)
          end
      end
  end.

(** DELETE /businesses/<int:business_id> *)
Definition delete_business (business_id : Z) (d : db) : response * db :=
  match one_or_none (select_business business_id d) with
  | None => ((BException, 500%Z), d)
  | Some None => ((BError no_business, 404%Z), d)
  | Some (Some existing_business) =>
      let review' := filter (λ r, r_business_id r ≠ business_id) (review d) in
      let businesses' := filter (λ b, b_id b ≠ business_id) (businesses d) in
      ((BEmpty, 204%Z),
       Db businesses' review' (next_business_id d) (next_review_id d))
  end.

(** GET /owners/<int:owner_id>/businesses *)
Definition list_businesses_for_owner (owner_id : Z) (d : db) : response :=
  let rows := order_by_id (filter (λ b, b_owner_id b = owner_id) (businesses d)) in
  match rows with
  | [] => (BError "No businesses found for this owner", 404%Z)
  | _ :: _ =>
      match mapM (λ b, business_json
                         (rstrip_slash (host_url ctx) +:+ "/businesses/"
                          +:+ pretty (b_id b)) b) rows with
      | Some business_list => (BList business_list, 200%Z)
      | None => (BException, 500%Z)
      end
  end.

(** SELECT id FROM businesses WHERE id = :business_id, for a JSON value *)
Definition select_business_value (v : value) (d : db) : list business_row :=
  match as_int drv v with
  | Some n => select_business n d
  | None => []
  end.

(** SELECT id FROM review WHERE user_id = :user_id AND business_id = :business_id *)
Definition select_review_pair (user_id business_id : value) (d : db) : list review_row :=
  match as_int drv user_id, as_int drv business_id with
  | Some u, Some b => filter (λ r, r_user_id r = u ∧ r_business_id r = b) (review d)
  | _, _ => []
  end.

(** The row INSERT INTO review stores; the foreign key must hold. *)
Definition review_params (id : Z) (content : obj) (d : db) : option review_row :=
  user_id ← bind_int drv (dict_get content "user_id");
  business_id ← bind_int drv (dict_get content "business_id");
  stars ← bind_int drv (dict_get content "stars");
  review_text ← bind_text drv (default (VStr "") (content !! "review_text"));
  guard (select_business business_id d ≠ []);;
  Some (ReviewRow id user_id business_id stars review_text).

(** POST /reviews *)
Definition create_review (content : obj) (d : db) : response * db :=
  match missing content ["user_id"; "business_id"; "stars"] with
  | _ :: _ => ((BError missing_attributes, 400%Z), d)
  | [] =>
      match one_or_none (select_business_value (dict_get content "business_id") d) with
      | None => ((BException, 500%Z), d)
      | Some None => ((BError no_business, 404%Z), d)
      | Some (Some business_exists) =>
          match one_or_none (select_review_pair (dict_get content "user_id")
                               (dict_get content "business_id") d) with
          | None => ((BException, 500%Z), d)
          | Some (Some review_exists) => ((BError already_reviewed, 409%Z), d)
          | Some None =>
              let review_id := next_review_id d in
              match review_params review_id content d with
              | None => ((BException, 500%Z), d)
              | Some row =>
                  ((BObj (list_to_map
                     [("id", VInt review_id); ("user_id", dict_get content "user_id");
                      ("stars", dict_get content "stars");
                      ("review_text", default (VStr "") (content !! "review_text"));
                      ("self", VStr (base_url ctx +:+ "/" +:+ pretty review_id));
                      ("business",
                       VStr (rstrip_slash (host_url ctx) +:+ "/businesses/"
                             +:+ py_str (dict_get content "business_id")))]),
                    201%Z),
                   Db (businesses d) (review d ++ [row])
                      (next_business_id d) (next_review_id d + 1))
              end
          end
      end
  end.

(** SELECT ... FROM review WHERE id = :review_id *)
Definition select_review (review_id : Z) (d : db) : list review_row :=
  filter (λ r, r_id r = review_id) (review d).

(** GET /reviews/<int:review_id> *)
Definition get_review (review_id : Z) (d : db) : response :=
  match one_or_none (select_review review_id d) with
  | None => (BException, 500%Z)
  | Some None => (BError no_review, 404%Z)
  | Some (Some r) => (BObj (review_json (base_url ctx) r), 200%Z)
  end.

(** The row after UPDATE review SET stars = .. [, review_text = ..] *)
Definition review_update (content : obj) (r : review_row) : option review_row :=
  stars ← bind_int drv (dict_get content "stars");
  review_text ←
    match content !! "review_text" with
    | Some t => bind_text drv t
    | None => Some (r_review_text r)
    end;
  Some (ReviewRow (r_id r) (r_user_id r) (r_business_id r) stars review_text).

(** PUT /reviews/<int:review_id> *)
Definition update_review (review_id : Z) (content : obj) (d : db) : response * db :=
  match content !! "stars" with
  | None => ((BError missing_attributes, 400%Z), d)
  | Some _ =>
      match one_or_none (select_review review_id d) with
      | None => ((BException, 500%Z), d)
      | Some None => ((BError no_review, 404%Z), d)
      | Some (Some r) =>
          match review_update content r with
          | None => ((BException, 500%Z), d)
          | Some updated_review =>
              ((BObj (review_json (base_url ctx) updated_review), 200%Z),
               Db (businesses d)
                  ((λ x, if decide (r_id x = review_id) then updated_review else x)
                     <$> review d)
                  (next_business_id d) (next_review_id d))
          end
      end
  end.

(** DELETE /reviews/<int:review_id> *)
Definition delete_review (review_id : Z) (d : db) : response * db :=
  match one_or_none (select_review review_id d) with
  | None => ((BException, 500%Z), d)
  | Some None => ((BError no_review, 404%Z), d)
  | Some (Some r) =>
      ((BEmpty, 204%Z),
       Db (businesses d) (filter (λ x, r_id x ≠ review_id) (review d))
          (next_business_id d) (next_review_id d))
  end.

(** GET /users/<int:user_id>/reviews *)
Definition get_reviews_for_user (user_id : Z) (d : db) : response :=
  let reviews := filter (λ r, r_user_id r = user_id) (review d) in
  match reviews with
  | [] => (BList [], 404%Z)
  | _ :: _ =>
      (BList ((λ r, review_json (rstrip_slash (host_url ctx) +:+ "/reviews/"
                                   +:+ pretty (r_id r)) r) <$> reviews),
       200%Z)
  end.

End handlers.

(** The constraints of the schema ([create_table]): both primary keys and
    the foreign key of [review]. *)
Definition schema_ok (d : db) : Prop :=
  NoDup (b_id <$> businesses d) ∧
  NoDup (r_id <$> review d) ∧
  (∀ r, r ∈ review d → ∃ b, b ∈ businesses d ∧ b_id b = r_business_id r).

(** The schema's constraints and, besides, at most one review per user and
    business.  No constraint of the schema enforces the last part:
    [create_review] checks for a stored review of the pair before it
    inserts, which keeps it for a [coherent] driver only. *)
Definition db_ok (d : db) : Prop :=
  NoDup (b_id <$> businesses d) ∧
  NoDup (r_id <$> review d) ∧
  (∀ r, r ∈ review d → ∃ b, b ∈ businesses d ∧ b_id b = r_business_id r) ∧
  NoDup ((λ r, (r_user_id r, r_business_id r)) <$> review d).

(** AUTO_INCREMENT stays ahead of every stored id. *)
Definition counters_ok (d : db) : Prop :=
  (∀ b, b ∈ businesses d → (b_id b < next_business_id d)%Z) ∧
  (∀ r, r ∈ review d → (r_id r < next_review_id d)%Z).

Definition db_inv (d : db) : Prop := db_ok d ∧ counters_ok d.

(** A driver that stores in an INT column the integer it compares with. *)
Definition coherent (drv : driver) : Prop :=
  ∀ v n, bind_int drv v = Some n → as_int drv v = Some n.

(** The requests that change the database, and the databases the service
    can be in after any sequence of them, starting from the empty tables. *)
Inductive request :=
| PostBusiness (content : obj)
| PutBusiness (business_id : Z) (content : obj)
| DeleteBusiness (business_id : Z)
| PostReview (content : obj)
| PutReview (review_id : Z) (content : obj)
| DeleteReview (review_id : Z).

Definition handle (drv : driver) (ctx : context) (q : request) (d : db) : response * db :=
  match q with
  | PostBusiness content => create_businesses drv ctx content d
  | PutBusiness business_id content => edit_business drv ctx business_id content d
  | DeleteBusiness business_id => delete_business business_id d
  | PostReview content => create_review drv ctx content d
  | PutReview review_id content => update_review drv ctx review_id content d
  | DeleteReview review_id => delete_review review_id d
  end.

Definition run (drv : driver) (ctx : context) (qs : list request) (d : db) : db :=
  foldl (λ acc q, (handle drv ctx q acc).2) d qs.

Definition empty_db : db := Db [] [] 1 1.

Definition reachable (drv : driver) (ctx : context) (d : db) : Prop :=
  ∃ qs, run drv ctx qs empty_db = d.

End MySQL.

(** ** Assignment 4: OAuth login with a stored state token *)

Module OAuth.
Import Py Datastore.

(** The identity provider and the templates, which the service only calls. *)
Record provider := Provider {
  exchange : option string → option string;
    (* the access_token of the token response for a code, if any *)
  people_me : string → string * string;
    (* given and family name read from the user info response *)
  render_userinfo : string → string → string → string;
  render_welcome : string → string
}.

Definition CLIENT_ID : string := "".
Definition REDIRECT_URI : string := "https://assignment4-renew.uw.r.appspot.com/oauth".
Definition AUTHORIZATION_URL : string := "https://accounts.google.com/o/oauth2/v2/auth".

(** Entities of kind "state", each holding one issued token. *)
Definition store_state (new_id : Z) (state : string) (m : gmap Z obj) : gmap Z obj :=
  put new_id {[ "state" := VStr state ]} m.

Definition verify_state (state : string) (m : gmap Z obj) : bool * gmap Z obj :=
  let results := fetch [("state", VStr state)] m in
  match results with
  | r :: _ => (true, delete r.1 m)
  | [] => (false, m)
  end.

Definition state_failed : response := (BText "State verification failed", 400%Z).

Section routes.
Variable idp : provider.

(** GET /, with the token [secrets.token_urlsafe(16)] produced. *)
Definition welcome (new_id : Z) (state : string) (m : gmap Z obj) : response * gmap Z obj :=
  let m' := store_state new_id state m in
  let authorization_url :=
    AUTHORIZATION_URL +:+ "?client_id=" +:+ CLIENT_ID +:+ "&redirect_uri="
    +:+ REDIRECT_URI
    +:+ "&response_type=code&scope=https://www.googleapis.com/auth/userinfo.profile"
    +:+ "&state=" +:+ state in
  ((BText (render_welcome idp authorization_url), 200%Z), m').

(** GET /oauth; [not state] holds for a missing and for an empty [state]
    argument. *)
Definition oauth_callback (code state : option string) (m : gmap Z obj)
  : response * gmap Z obj :=
  match state with
  | None | Some "" => (state_failed, m)
  | Some state =>
      let '(verified, m') := verify_state state m in
      if negb verified then (state_failed, m')
      else
        match exchange idp code with
        | None | Some "" => ((BText "Failed to retrieve access token", 400%Z), m')
        | Some access_token =>
            let '(given_name, family_name) := people_me idp access_token in
            ((BText (render_userinfo idp given_name family_name state), 200%Z), m')
        end
  end.

(** The requests that touch the stored tokens. *)
Inductive request :=
| Welcome (new_id : Z) (state : string)
| Callback (code state : option string).

Definition handle (r : request) (m : gmap Z obj) : response * gmap Z obj :=
  match r with
  | Welcome new_id state => welcome new_id state m
  | Callback code state => oauth_callback code state m
  end.

Definition run (rs : list request) (m : gmap Z obj) : gmap Z obj :=
  foldl (λ acc r, (handle r acc).2) m rs.

End routes.

(** How many stored tokens carry the value [state]. *)
Definition issued (state : string) (m : gmap Z obj) : nat :=
  length (fetch [("state", VStr state)] m).

End OAuth.

(** ** Assignment 5: REST API behind a bearer JWT *)

Module JWT.
Import Py Datastore.

(** The token library and the published key set, which the service only
    calls.  [None] stands for a raised exception. *)
Record jose := Jose {
  jwks_keys : list obj;
    (* jwks["keys"] *)
  get_unverified_header : string → option obj;
    (* jwt.get_unverified_header; None when it raises JWTError *)
  decode : string → obj → option obj
    (* jwt.decode with the fixed algorithms, audience and issuer; None when
       it raises *)
}.

(** The request: the Authorization header, already split on white space,
    when present, and [request.url_root]. *)
Record request := Request {
  authorization : option (list string);
  url_root : string
}.

(** The loop over [jwks["keys"]]: the last key with the header's kid wins;
    a missing item raises KeyError. *)
Fixpoint find_rsa_key (keys : list obj) (unverified_header : obj) (rsa_key : obj)
  : option obj :=
  match keys with
  | [] => Some rsa_key
  | key :: keys' =>
      kid ← key !! "kid";
      hkid ← unverified_header !! "kid";
      if decide (kid = hkid) then
        kty ← key !! "kty";
        use ← key !! "use";
        n ← key !! "n";
        e ← key !! "e";
        find_rsa_key keys' unverified_header
          (list_to_map [("kty", kty); ("kid", kid); ("use", use); ("n", n); ("e", e)])
      else find_rsa_key keys' unverified_header rsa_key
  end.

Section routes.
Variable lib : jose.

(** [verify_jwt(request)]: [Some (Some payload)] for a verified token,
    [Some None] when the function returns [None], [None] when it raises. *)
Definition verify_jwt (req : request) : option (option obj) :=
  match authorization req with
  | None => Some None
  | Some auth_header =>
      token ← auth_header !! 1%nat;
      match get_unverified_header lib token with
      | None => Some None
      | Some unverified_header =>
          alg ← unverified_header !! "alg";
          if decide (alg = VStr "HS256") then Some None
          else
            rsa_key ← find_rsa_key (jwks_keys lib) unverified_header ∅;
            if dict_truthy rsa_key then Some (decode lib token rsa_key)
            else Some None
      end
  end.

Definition crashed : response := (BException, 500%Z).
Definition unauthorized : response :=
  (BError "Invalid JWT / Unauthorized access.", 401%Z).
Definition no_business : response :=
  (BError "No business with this business_id exists", 403%Z).

Definition check_attributes (content : obj) : bool :=
  forallb (λ field, bool_decide (is_Some (content !! field) ∧ content !! field ≠ Some VNull))
    ["name"; "street_address"; "city"; "state"; "zip_code"; "inspection_score"].

(** POST /businesses *)
Definition businesses_post (new_id : Z) (content : obj) (req : request) (m : gmap Z obj)
  : response * gmap Z obj :=
  if negb (check_attributes content)
  then ((BError "The request body is missing at least one of the required attributes",
         400%Z), m)
  else
    match verify_jwt req with
    | None => (crashed, m)
    | Some payload =>
        if negb (opt_truthy payload) then (unauthorized, m)
        else
          let sub := dict_get (default ∅ payload) "sub" in
          let new_business : obj := content ∪ {[ "owner_id" := sub ]} in
          let self_link := url_root req +:+ "businesses/" +:+ pretty new_id in
          ((BObj (<["self" := VStr self_link]>
                    (content ∪ <["owner_id" := sub]> {[ "id" := VInt new_id ]})),
            201%Z),
           put new_id new_business m)
    end.

(** GET /businesses/<int:id> *)
Definition get_business (id : Z) (req : request) (m : gmap Z obj) : response :=
  match verify_jwt req with
  | None => crashed
  | Some None => unauthorized
  | Some (Some payload) =>
      match get m (KId id) with
      | None => no_business
      | Some business =>
          if negb (dict_truthy business) then no_business
          else
            match payload !! "sub", business !! "owner_id" with
            | Some sub, Some owner_id =>
                if decide (sub ≠ owner_id) then no_business
                else
                  let self_link := url_root req +:+ "businesses/" +:+ pretty id in
                  (BObj (<["self" := VStr self_link]> (<["id" := VInt id]> business)),
                   200%Z)
            | _, _ => crashed
            end
      end
  end.

(** One element of the list GET /businesses answers with. *)
Definition business_entry (base_url : string) (sub : value) (r : Z * obj) : obj :=
  list_to_map
    [("id", VInt r.1); ("owner_id", dict_get r.2 "owner_id");
     ("name", dict_get r.2 "name");
     ("street_address", dict_get r.2 "street_address");
     ("city", dict_get r.2 "city"); ("state", dict_get r.2 "state");
     ("zip_code", dict_get r.2 "zip_code");
     ("inspection_score",
      if value_truthy sub then dict_get r.2 "inspection_score" else VNull);
     ("self", VStr (base_url +:+ "businesses/" +:+ pretty r.1))].

(** GET /businesses *)
Definition businesses_list (req : request) (m : gmap Z obj) : response :=
  match verify_jwt req with
  | None => crashed
  | Some payload =>
      let base_url := url_root req in
      let sub := if opt_truthy payload then dict_get (default ∅ payload) "sub" else VNull in
      let results :=
        if value_truthy sub then fetch [("owner_id", sub)] m else fetch [] m in
      (BList (business_entry base_url sub <$> results), 200%Z)
  end.

(** DELETE /businesses/<int:id> *)
Definition delete_business (id : Z) (req : request) (m : gmap Z obj)
  : response * gmap Z obj :=
  match verify_jwt req with
  | None => (crashed, m)
  | Some None => (unauthorized, m)
  | Some (Some payload) =>
      match get m (KId id) with
      | None => (no_business, m)
      | Some business =>
          if negb (dict_truthy business) then (no_business, m)
          else
            match payload !! "sub", business !! "owner_id" with
            | Some sub, Some owner_id =>
                if decide (sub ≠ owner_id) then (no_business, m)
                else ((BEmpty, 204%Z), delete id m)
            | _, _ => (crashed, m)
            end
      end
  end.

End routes.

End JWT.

(** ** Sample requests and stores *)

Module Sample.
Import Py.

Definition business_data : obj :=
  {[ "owner_id" := VInt 1; "name" := VStr "A"; "street_address" := VStr "1 St";
     "city" := VStr "X"; "state" := VStr "WA"; "zip_code" := VStr "98101" ]}.

Definition review_data : obj :=
  {[ "user_id" := VInt 5; "business_id" := VInt 1; "stars" := VInt 4 ]}.

(** A review for a business id that is not stored. *)
Definition orphan_review_data : obj :=
  {[ "user_id" := VInt 5; "business_id" := VInt 2; "stars" := VInt 4 ]}.

(** An update body without "name". *)
Definition nameless_data : obj :=
  {[ "owner_id" := VInt 1; "street_address" := VStr "1 St";
     "city" := VStr "X"; "state" := VStr "WA"; "zip_code" := VStr "98101" ]}.

(** An update body without "state", renaming the business. *)
Definition stateless_data : obj :=
  {[ "owner_id" := VInt 1; "name" := VStr "B"; "street_address" := VStr "1 St";
     "city" := VStr "X"; "zip_code" := VStr "98101" ]}.

(** Assignment 2: one business, with id 1, and one review of it, with id 7. *)
Definition gae_requests : list GAE.request :=
  [GAE.PostBusiness 1 business_data; GAE.PostReview 7 review_data].

Definition gae_store : GAE.store := GAE.run gae_requests GAE.empty_store.

(** Assignment 3: a driver that takes integers as they are and reads
    strings of decimal digits. *)
Fixpoint digits (s : string) (acc : Z) : option Z :=
  match s with
  | EmptyString => Some acc
  | String c s' =>
      let n := Z.of_nat (nat_of_ascii c) in
      if decide (48 ≤ n ≤ 57)%Z then digits s' (10 * acc + (n - 48))%Z else None
  end.

Definition int_of (v : value) : option Z :=
  match v with
  | VInt n => Some n
  | VStr EmptyString => None
  | VStr s => digits s 0
  | VNull => None
  end.

Definition drv : MySQL.driver :=
  MySQL.Driver int_of int_of
    (λ _ v, match v with VNull => None | _ => Some (py_str v) end)
    (λ v, match v with VNull => Some None | _ => Some (Some (py_str v)) end)
    int_of.

Definition ctx : MySQL.context :=
  MySQL.Context "http://localhost:8080/businesses" "http://localhost:8080/".

(** One business, with id 1, and one review of it by user 5. *)
Definition db : MySQL.db :=
  MySQL.Db [MySQL.BusinessRow 1 1 "A" "1 St" "X" "WA" "98101"]
           [MySQL.ReviewRow 1 5 1 4 (Some "")] 2 2.








(** The requests that lead from the empty tables to [db]. *)
Definition mysql_requests : list MySQL.request :=
  [MySQL.PostBusiness business_data; MySQL.PostReview review_data].

(** Assignment 4: a provider that answers every code with a token. *)
Definition idp : OAuth.provider :=
  OAuth.Provider (λ _, Some "token") (λ _, ("Ada", "Lovelace"))
    (λ given family state, given +:+ " " +:+ family +:+ " " +:+ state)
    (λ url, url).

(** One issued token, "abc". *)
Definition tokens : gmap Z obj := OAuth.store_state 1 "abc" ∅.

(** Assignment 5: one published key; the token "good" is signed with it by
    subject "bob". *)
Definition jwk : obj :=
  {[ "kty" := VStr "RSA"; "kid" := VStr "k1"; "use" := VStr "sig";
     "n" := VStr "n"; "e" := VStr "AQAB" ]}.

Definition lib : JWT.jose :=
  JWT.Jose [jwk]
    (λ token, if decide (token = "good")
              then Some {[ "alg" := VStr "RS256"; "kid" := VStr "k1" ]} else None)
    (λ token _, if decide (token = "good")
                then Some {[ "sub" := VStr "bob" ]} else None).

Definition bob_request : JWT.request :=
  JWT.Request (Some ["Bearer"; "good"]) "http://localhost:8080/".



(** One business, owned by "alice". *)
Definition alice_business : obj :=
  {[ "owner_id" := VStr "alice"; "name" := VStr "A"; "street_address" := VStr "1 St";
     "city" := VStr "X"; "state" := VStr "WA"; "zip_code" := VStr "98101";
     "inspection_score" := VInt 90 ]}.

Definition jwt_store : gmap Z obj := {[ 1%Z := alice_business ]}.

(** A second business, owned by "bob", and a body for POST /businesses. *)
Definition bob_business : obj :=
  {[ "owner_id" := VStr "bob"; "name" := VStr "B"; "street_address" := VStr "2 St";
     "city" := VStr "Y"; "state" := VStr "OR"; "zip_code" := VStr "97201";
     "inspection_score" := VInt 80 ]}.

Definition jwt_store2 : gmap Z obj :=
  {[ 1%Z := alice_business; 2%Z := bob_business ]}.

Definition jwt_content : obj :=
  {[ "name" := VStr "B"; "street_address" := VStr "2 St";
     "city" := VStr "Y"; "state" := VStr "OR"; "zip_code" := VStr "97201";
     "inspection_score" := VInt 80 ]}.

End Sample.

(** * Properties *)

(** ** Validation and Datastore queries *)

Section datastore_facts.
Import Py Datastore.

Lemma missing_nil (data : obj) (fields : list string) :
  missing data fields = [] ↔ Forall (λ f, is_Some (data !! f)) fields.
Proof.
  unfold missing. induction fields as [|f fields IH]; [by split|].
  rewrite filter_cons, Forall_cons. destruct (data !! f) eqn:Hf.
  - rewrite decide_False by done. rewrite IH. split; [by intros ?; split; eauto|].
    by intros [_ ?].
  - rewrite decide_True by done. split; [done|]. intros [[? ?] _]. done.
Qed.

Lemma missing_cons (data : obj) (fields : list string) f :
  f ∈ fields → data !! f = None → missing data fields ≠ [].
Proof.
  intros Hin Hf Hnil. apply missing_nil in Hnil.
  rewrite Forall_forall in Hnil. destruct (Hnil f Hin) as [? ?]. congruence.
Qed.

Lemma dict_get_Some (d : obj) k v : d !! k = Some v → dict_get d k = v.
Proof. unfold dict_get. by intros ->. Qed.

Lemma dict_truthy_true (d : obj) : dict_truthy d = true ↔ d ≠ ∅.
Proof. unfold dict_truthy. by rewrite bool_decide_eq_true. Qed.

Lemma dict_truthy_lookup (d : obj) k v : d !! k = Some v → dict_truthy d = true.
Proof. intros H. apply dict_truthy_true. intros ->. by rewrite lookup_empty in H. Qed.

Lemma elem_of_fetch filters (m : gmap Z obj) k e :
  (k, e) ∈ fetch filters m ↔ m !! k = Some e ∧ matches filters (k, e).
Proof.
  unfold fetch. rewrite list_elem_of_filter, elem_of_map_to_list. tauto.
Qed.

Lemma fetch_nil filters (m : gmap Z obj) :
  fetch filters m = [] ↔ ∀ k e, m !! k = Some e → ¬ matches filters (k, e).
Proof.
  split.
  - intros Hnil k e Hk Hm.
    assert ((k, e) ∈ fetch filters m) as Hin by (by apply elem_of_fetch).
    rewrite Hnil in Hin. by apply not_elem_of_nil in Hin.
  - intros Hno. destruct (fetch filters m) as [|[k e] l] eqn:Hf; [done|].
    assert ((k, e) ∈ fetch filters m) as Hin by (rewrite Hf; left).
    apply elem_of_fetch in Hin as [Hk Hm]. by destruct (Hno k e Hk).
Qed.


Lemma matches_one f v (r : Z * obj) : matches [(f, v)] r ↔ r.2 !! f = Some v.
Proof.
  unfold matches. rewrite Forall_cons. split; [by intros [? _]|]. intros ?. by split.
Qed.

Lemma lookup_delete_all (results : list (Z * obj)) (m : gmap Z obj) k :
  delete_all results m !! k = if decide (k ∈ results.*1) then None else m !! k.
Proof.
  unfold delete_all. revert m. induction results as [|[k' e'] results IH]; intros m.
  - done.
  - cbn [foldl]. rewrite IH, fmap_cons. cbn [fst].
    destruct (decide (k = k')) as [->|Hne].
    + rewrite lookup_delete_eq. rewrite (decide_True (P := k' ∈ k' :: _)) by left.
      by case_decide.
    + rewrite lookup_delete_ne by done.
      destruct (decide (k ∈ results.*1)) as [Hin|Hnin].
      * rewrite decide_True; [done|]. by right.
      * rewrite decide_False; [done|]. rewrite elem_of_cons. by intros [?|?].
Qed.

Lemma lookup_delete_fetch filters (m : gmap Z obj) k e :
  delete_all (fetch filters m) m !! k = Some e ↔
  m !! k = Some e ∧ ¬ matches filters (k, e).
Proof.
  rewrite lookup_delete_all. destruct (decide (k ∈ (fetch filters m).*1)) as [Hin|Hnin].
  - split; [done|]. intros [Hk Hno].
    apply list_elem_of_fmap in Hin as [[k' e'] [-> Hin]].
    apply elem_of_fetch in Hin as [Hk' Hm]. simpl in *. congruence.
  - split.
    + intros Hk. split; [done|]. intros Hm. apply Hnin.
      apply list_elem_of_fmap. exists (k, e). split; [done|]. by apply elem_of_fetch.
    + by intros [Hk _].
Qed.

End datastore_facts.

(** ** Assignment 2: the store invariant *)

Section gae_invariant.
Import Py Datastore GAE.

Lemma gae_empty_store_ok : store_ok empty_store.
Proof. split; intros k e; simpl; by rewrite lookup_empty. Qed.

Lemma gae_truthy_get (m : gmap Z obj) key :
  opt_truthy (get m key) = true →
  ∃ b e, key = KId b ∧ m !! b = Some e ∧ e ≠ ∅.
Proof.
  destruct key as [b|name]; simpl; [|done].
  destruct (m !! b) as [e|] eqn:Hb; simpl; [|done].
  intros He%dict_truthy_true. by exists b, e.
Qed.

Lemma gae_create_business_ok new_id data s :
  store_ok s → store_ok (create_business new_id data s).2.
Proof.
  intros [Hb Hr]. unfold create_business, validate_fields.
  destruct (missing data _) as [|f fs] eqn:Hmiss; [|by split].
  apply missing_nil in Hmiss. inversion_clear Hmiss as [|? ? [v Hv] _].
  split; simpl; unfold put.
  - intros k e. rewrite lookup_insert. case_decide; [|by apply Hb].
    intros [= <-] ->. by rewrite lookup_empty in Hv.
  - intros k e Hk. destruct (Hr k e Hk) as (He & b & Hbid & Hsome).
    split; [done|]. exists b. split; [done|].
    rewrite lookup_insert. case_decide; [by eexists|done].
Qed.

Lemma gae_delete_business_ok business_id s :
  store_ok s → store_ok (delete_business_by_id business_id s).2.
Proof.
  intros [Hb Hr]. unfold delete_business_by_id.
  destruct (negb _); [by split|]. split; simpl.
  - intros k e Hk. apply lookup_delete_Some in Hk as [_ Hk]. by eapply Hb.
  - intros k e [Hk Hno]%lookup_delete_fetch.
    destruct (Hr k e Hk) as (He & b & Hbid & Hsome).
    split; [done|]. exists b. split; [done|].
    rewrite lookup_delete_ne; [done|]. intros <-.
    apply Hno. by apply matches_one.
Qed.

Lemma gae_edit_business_ok business_id data s :
  store_ok s → store_ok (edit_business business_id data s).2.
Proof.
  intros [Hb Hr]. unfold edit_business.
  destruct (opt_truthy _) eqn:Ht; simpl; [|by split].
  destruct (validate_fields data _); [|by split].
  apply gae_truthy_get in Ht as (b & e & [= <-] & Hbe & He).
  simpl. rewrite Hbe. simpl. split; simpl.
  - intros k e'. rewrite lookup_insert. case_decide; [|by apply Hb].
    intros [= <-] Hu. apply He. apply map_eq. intros i.
    assert ((data ∪ e) !! i = None) as Hi by (by rewrite Hu, lookup_empty).
    apply lookup_union_None in Hi as [_ Hi]. by rewrite lookup_empty.
  - intros k e' Hk. destruct (Hr k e' Hk) as (He' & b & Hbid & Hsome).
    split; [done|]. exists b. split; [done|].
    rewrite lookup_insert. case_decide; [by eexists|done].
Qed.

Lemma gae_create_review_ok new_id data s :
  store_ok s → store_ok (create_review new_id data s).2.
Proof.
  intros [Hb Hr]. unfold create_review, validate_fields.
  destruct (missing data _) as [|f fs] eqn:Hmiss; [|by split].
  apply missing_nil in Hmiss.
  inversion_clear Hmiss as [|? ? [u Hu] Hrest].
  inversion_clear Hrest as [|? ? [v Hv] _].
  destruct (client_key _) as [key|] eqn:Hkey; [|by split].
  destruct (opt_truthy _) eqn:Ht; simpl; [|by split].
  destruct (take 1 _); [|by split].
  apply gae_truthy_get in Ht as (b & e & -> & Hbe & He).
  rewrite (dict_get_Some _ _ _ Hv) in Hkey.
  destruct v as [|n|name]; simplify_eq/=.
  split; simpl; [done|]. unfold put. intros k e'.
  rewrite lookup_insert. case_decide; [|by apply Hr].
  intros [= <-]. split.
  - intros ->. by rewrite lookup_empty in Hu.
  - exists b. split; [done|]. by eexists.
Qed.

Lemma gae_update_review_ok review_id data s :
  store_ok s → store_ok (update_review review_id data s).2.
Proof.
  intros [Hb Hr]. unfold update_review.
  destruct (validate_fields data _); [|by split].
  destruct (opt_truthy _) eqn:Ht; simpl; [|by split].
  apply gae_truthy_get in Ht as (b & e & [= <-] & Hbe & He).
  simpl. rewrite Hbe. simpl. split; simpl; [done|].
  intros k e'. rewrite lookup_insert. case_decide; [|by apply Hr].
  intros [= <-]. destruct (Hr _ _ Hbe) as (_ & b & Hbid & Hsome). split.
  - intros Hu.
    assert (({[ "stars" := dict_get data "stars";
                "review_text" := default (dict_get e "review_text")
                                         (data !! "review_text") ]} ∪ e)
              !! "business_id" = None) as Hi.
    { by rewrite Hu, lookup_empty. }
    apply lookup_union_None in Hi as [_ Hi]. congruence.
  - exists b. split; [|done].
    rewrite lookup_union_r; [done|].
    rewrite lookup_insert_ne by done. by rewrite lookup_singleton_ne.
Qed.

Lemma gae_delete_review_ok review_id s :
  store_ok s → store_ok (delete_review review_id s).2.
Proof.
  intros [Hb Hr]. unfold delete_review.
  destruct (negb _); [by split|]. split; simpl; [done|].
  intros k e Hk. apply lookup_delete_Some in Hk as [_ Hk]. by apply (Hr k).
Qed.

Lemma gae_handle_ok r s : store_ok s → store_ok (handle r s).2.
Proof.
  destruct r; simpl;
    eauto using gae_create_business_ok, gae_delete_business_ok,
      gae_edit_business_ok, gae_create_review_ok, gae_update_review_ok,
      gae_delete_review_ok.
Qed.

Lemma gae_run_ok rs s : store_ok s → store_ok (run rs s).
Proof.
  unfold run. revert s. induction rs as [|r rs IH]; intros s Hs; [done|].
  simpl. apply IH. by apply gae_handle_ok.
Qed.

(** Every store the service reaches from the empty one satisfies the
    invariant. *)
Lemma gae_reachable_ok s : reachable s → store_ok s.
Proof. intros [rs <-]. apply gae_run_ok, gae_empty_store_ok. Qed.

End gae_invariant.

(** ** Assignment 2: the handlers *)

Section gae_handlers.
Import Py Datastore GAE.

(** An existing business of a well-formed store passes [if not business]. *)
Lemma gae_existing_truthy s b e :
  store_ok s → businesses s !! b = Some e →
  opt_truthy (get (businesses s) (KId b)) = true.
Proof.
  intros [Hb _] Hbe. simpl. rewrite Hbe. simpl.
  apply dict_truthy_true. by eapply Hb.
Qed.




(** DELETE /businesses/{id} on a stored business: 204, and the business and
    all its reviews are gone. *)
Lemma gae_delete_business_cascade business_id s e :
  store_ok s → businesses s !! business_id = Some e →
  ∃ s', delete_business_by_id business_id s = ((BEmpty, 204%Z), s') ∧
        businesses s' !! business_id = None ∧
        (∀ k r, reviews s' !! k = Some r →
                r !! "business_id" ≠ Some (VInt business_id)) ∧
        fetch [("business_id", VInt business_id)] (reviews s') = [] ∧
        get_business_by_id business_id s' = entity_not_found "business".
Proof.
  intros Hok Hbe. unfold delete_business_by_id.
  rewrite (gae_existing_truthy s business_id e Hok Hbe). simpl negb. cbv iota.
  eexists. split; [done|]. simpl.
  assert (∀ k r,
    delete_all (fetch [("business_id", VInt business_id)] (reviews s)) (reviews s)
      !! k = Some r → r !! "business_id" ≠ Some (VInt business_id)) as Hgone.
  { intros k r [_ Hno]%lookup_delete_fetch Hr. apply Hno. by apply matches_one. }
  split; [apply lookup_delete_eq|]. split; [done|]. split.
  - apply fetch_nil. intros k r Hk Hm%matches_one. by eapply Hgone.
  - unfold get_business_by_id. simpl. by rewrite lookup_delete_eq.
Qed.

(** The two filtered listings answer 200 with an empty list when nothing
    matches. *)
Lemma gae_list_businesses_for_owner_empty owner_id s :
  (∀ k e, businesses s !! k = Some e → e !! "owner_id" ≠ Some (VInt owner_id)) →
  list_businesses_for_owner owner_id s = (BList [], 200%Z).
Proof.
  intros Hno. unfold list_businesses_for_owner.
  replace (fetch _ _) with (@nil (Z * obj)); [done|].
  symmetry. apply fetch_nil. intros k e Hk Hm%matches_one. by eapply Hno.
Qed.

Lemma gae_list_reviews_for_user_empty user_id s :
  (∀ k e, reviews s !! k = Some e → e !! "user_id" ≠ Some (VInt user_id)) →
  list_reviews_for_user user_id s = (BList [], 200%Z).
Proof.
  intros Hno. unfold list_reviews_for_user.
  replace (fetch _ _) with (@nil (Z * obj)); [done|].
  symmetry. apply fetch_nil. intros k e Hk Hm%matches_one. by eapply Hno.
Qed.

(** PUT /businesses/{id} never answers 400: a missing field is reported
    through [entity_not_found]. *)
Lemma gae_edit_business_never_400 business_id data s :
  status (edit_business business_id data s).1 ≠ 400%Z.
Proof.
  unfold edit_business. destruct (negb _); [done|].
  destruct (validate_fields _ _); done.
Qed.

Lemma gae_edit_business_missing business_id data s e f :
  store_ok s → businesses s !! business_id = Some e →
  f ∈ ["owner_id"; "name"; "street_address"; "city"; "zip_code"] →
  data !! f = None →
  ∃ msg, edit_business business_id data s = ((BError msg, 404%Z), s).
Proof.
  intros Hok Hbe Hf Hnone. unfold edit_business.
  rewrite (gae_existing_truthy s business_id e Hok Hbe). simpl negb. cbv iota.
  unfold validate_fields.
  destruct (missing data _) as [|f' fs] eqn:Hmiss.
  - by destruct (missing_cons data _ f Hf Hnone).
  - by eexists.
Qed.

(** POST /businesses then GET /businesses/{id}. *)
Lemma gae_create_then_get new_id data s :
  Forall (λ f, is_Some (data !! f))
    ["owner_id"; "name"; "street_address"; "state"; "city"; "zip_code"] →
  ∃ s', create_business new_id data s
          = ((BObj (<["id" := VInt new_id]> data), 201%Z), s') ∧
        get_business_by_id new_id s' = (BObj (<["id" := VInt new_id]> data), 200%Z).
Proof.
  intros Hfields. unfold create_business, validate_fields.
  pose proof Hfields as Hmiss. apply missing_nil in Hmiss. rewrite Hmiss.
  eexists. split; [done|].
  inversion_clear Hfields as [|? ? [v Hv] _].
  unfold get_business_by_id, put. simpl. rewrite lookup_insert_eq. simpl.
  by rewrite (dict_truthy_lookup _ _ _ Hv).
Qed.

End gae_handlers.

(** ** Assignment 3: the handlers *)

Section mysql_handlers.
Import Py MySQL.
Variable drv : driver.
Variable ctx : context.

(** A unique column selects exactly the row that holds the value. *)
Lemma filter_unique {A B} `{EqDecision B} (f : A → B) (l : list A) x c :
  NoDup (f <$> l) → x ∈ l → f x = c → filter (λ y, f y = c) l = [x].
Proof.
  intros Hnd Hin <-. induction l as [|a l IH]; [by apply not_elem_of_nil in Hin|].
  rewrite fmap_cons in Hnd. apply NoDup_cons in Hnd as [Ha Hnd].
  rewrite filter_cons. apply elem_of_cons in Hin as [->|Hin].
  - rewrite decide_True by done. f_equal.
    destruct (filter _ l) as [|y ys] eqn:Hf; [done|]. exfalso.
    assert (y ∈ filter (λ y, f y = f a) l) as Hy by (rewrite Hf; left).
    apply list_elem_of_filter in Hy as [Hy1 Hy2]. apply Ha. rewrite <- Hy1.
    by apply list_elem_of_fmap_2.
  - rewrite decide_False; [by apply IH|].
    intros Heq. apply Ha. rewrite Heq. by apply list_elem_of_fmap_2.
Qed.

Lemma filter_none {A} (P : A → Prop) `{∀ x, Decision (P x)} (l : list A) :
  (∀ x, x ∈ l → ¬ P x) → filter P l = [].
Proof.
  intros Hno. destruct (filter P l) as [|y ys] eqn:Hf; [done|]. exfalso.
  assert (y ∈ filter P l) as Hy by (rewrite Hf; left).
  apply list_elem_of_filter in Hy as [Hy1 Hy2]. by eapply Hno.
Qed.

Lemma filter_ext_in {A} (P Q : A → Prop) `{∀ x, Decision (P x)}
    `{∀ x, Decision (Q x)} (l : list A) :
  (∀ x, x ∈ l → P x ↔ Q x) → filter P l = filter Q l.
Proof.
  induction l as [|a l IH]; intros Hext; [done|].
  rewrite !filter_cons.
  rewrite IH by (intros x Hx; apply Hext; by right).
  destruct (decide (P a)) as [Ha|Ha].
  - rewrite decide_True; [done|]. apply Hext; [left|done].
  - rewrite decide_False; [done|]. intros Hq. apply Ha. apply Hext; [left|done].
Qed.

Lemma db_ok_schema d : db_ok d → schema_ok d.
Proof. intros (Hpk & Hrk & Hfk & _). by repeat split. Qed.

Lemma mysql_select_business d b :
  NoDup (b_id <$> businesses d) → b ∈ businesses d →
  select_business (b_id b) d = [b].
Proof. intros Hpk Hb. unfold select_business. by apply filter_unique. Qed.

(** The review a stored review's pair selects, when no other stored review
    has the pair. *)
Lemma mysql_select_review_pair d r u b :
  NoDup (r_id <$> review d) → r ∈ review d →
  (∀ x, x ∈ review d → r_user_id x = r_user_id r →
        r_business_id x = r_business_id r → x = r) →
  as_int drv u = Some (r_user_id r) → as_int drv b = Some (r_business_id r) →
  select_review_pair drv u b d = [r].
Proof.
  intros Hrk Hr Honly Hu Hb. unfold select_review_pair. rewrite Hu, Hb.
  rewrite <- (filter_unique r_id (review d) r (r_id r)) by done.
  apply filter_ext_in. intros x Hx. split.
  - intros [Hxu Hxb]. by rewrite (Honly x Hx Hxu Hxb).
  - intros Hid.
    assert (filter (λ y, r_id y = r_id r) (review d) = [r]) as Hone
      by (by apply filter_unique).
    assert (x ∈ [r]) as ->%list_elem_of_singleton; [|done].
    rewrite <- Hone. by apply list_elem_of_filter.
Qed.

(** With one review per pair in the whole table, no other stored review has
    a stored review's pair. *)
Lemma mysql_pair_only d r :
  NoDup ((λ r, (r_user_id r, r_business_id r)) <$> review d) → r ∈ review d →
  ∀ x, x ∈ review d → r_user_id x = r_user_id r →
       r_business_id x = r_business_id r → x = r.
Proof.
  intros Hpair Hr x Hx Hu Hb.
  assert (filter (λ y, (r_user_id y, r_business_id y)
                       = (r_user_id r, r_business_id r)) (review d) = [r]) as Hone
    by (by apply filter_unique).
  assert (x ∈ [r]) as ->%list_elem_of_singleton; [|done].
  rewrite <- Hone. apply list_elem_of_filter. split; [|done]. by rewrite Hu, Hb.
Qed.


(** POST /reviews for the pair of the only stored review of that pair: 409. *)
Lemma mysql_create_review_pair_once content d r :
  schema_ok d →
  Forall (λ f, is_Some (content !! f)) ["user_id"; "business_id"; "stars"] →
  r ∈ review d →
  (∀ x, x ∈ review d → r_user_id x = r_user_id r →
        r_business_id x = r_business_id r → x = r) →
  as_int drv (dict_get content "user_id") = Some (r_user_id r) →
  as_int drv (dict_get content "business_id") = Some (r_business_id r) →
  create_review drv ctx content d = ((BError already_reviewed, 409%Z), d).
Proof.
  intros (Hpk & Hrk & Hfk) Hfields Hr Honly Hu Hb. unfold create_review.
  apply missing_nil in Hfields. rewrite Hfields.
  destruct (Hfk r Hr) as (b & Hbin & Hbid).
  unfold select_business_value. rewrite Hb, <- Hbid.
  rewrite mysql_select_business by done. simpl.
  by rewrite (mysql_select_review_pair d r) by done.
Qed.

(** POST /reviews for a pair that already has a review: 409, nothing
    written. *)
Lemma mysql_create_review_duplicate content d r :
  db_ok d →
  Forall (λ f, is_Some (content !! f)) ["user_id"; "business_id"; "stars"] →
  r ∈ review d →
  as_int drv (dict_get content "user_id") = Some (r_user_id r) →
  as_int drv (dict_get content "business_id") = Some (r_business_id r) →
  create_review drv ctx content d = ((BError already_reviewed, 409%Z), d).
Proof.
  intros Hok Hfields Hr Hu Hb.
  apply (mysql_create_review_pair_once content d r); try done.
  - by apply db_ok_schema.
  - apply mysql_pair_only; [|done]. by destruct Hok as (_ & _ & _ & Hpair).
Qed.


(** POST /reviews writes only when it answers 201. *)
Lemma mysql_create_review_writes content d :
  status (create_review drv ctx content d).1 ≠ 201%Z →
  (create_review drv ctx content d).2 = d.
Proof.
  unfold create_review.
  destruct (missing _ _); [|done].
  destruct (one_or_none _) as [[?|]|]; [|done..].
  destruct (one_or_none _) as [[?|]|]; [done| |done].
  destruct (review_params _ _ _ _); [|done]. simpl. by intros [].
Qed.

(** DELETE /businesses/{id} on a stored business: 204, and the business and
    all its reviews are gone. *)
Lemma mysql_delete_business_cascade d b :
  NoDup (b_id <$> businesses d) → b ∈ businesses d →
  ∃ d', delete_business (b_id b) d = ((BEmpty, 204%Z), d') ∧
        select_business (b_id b) d' = [] ∧
        (∀ r, r ∈ review d' → r_business_id r ≠ b_id b) ∧
        filter (λ r, r_business_id r = b_id b) (review d') = [] ∧
        get_business drv ctx (b_id b) d' = (BError no_business, 404%Z).
Proof.
  intros Hok Hb. unfold delete_business.
  rewrite mysql_select_business by done. simpl. eexists. split; [done|].
  assert (select_business (b_id b)
            (Db (filter (λ x, b_id x ≠ b_id b) (businesses d))
                (filter (λ r, r_business_id r ≠ b_id b) (review d))
                (next_business_id d) (next_review_id d)) = []) as Hsel.
  { unfold select_business. simpl. apply filter_none.
    by intros x [Hx _]%list_elem_of_filter. }
  split; [done|]. simpl. split; [|split].
  - by intros r [Hr _]%list_elem_of_filter.
  - apply filter_none. by intros r [Hr _]%list_elem_of_filter.
  - unfold get_business. by rewrite Hsel.
Qed.

(** PUT /businesses/{id} with a required field missing: 400, whether or not
    the business is stored. *)
Lemma mysql_edit_business_missing business_id content d f :
  f ∈ business_fields → content !! f = None →
  edit_business drv ctx business_id content d = ((BError missing_attributes, 400%Z), d).
Proof.
  intros Hf Hnone. unfold edit_business.
  destruct (missing content business_fields) eqn:Hmiss; [|done].
  by destruct (missing_cons content _ f Hf Hnone).
Qed.

Lemma order_by_id_length rows : length (order_by_id rows) = length rows.
Proof. unfold order_by_id. by rewrite merge_sort_Permutation. Qed.

(** GET /businesses: the page holds at most [limit] entries, and [next] is
    set exactly when it holds [limit] entries. *)
Lemma mysql_list_businesses_page offset limit d :
  match list_businesses drv ctx offset limit d with
  | (BPage entries next, code) =>
      code = 200%Z ∧ (Z.of_nat (length entries) ≤ limit)%Z ∧
      (next ≠ None ↔ Z.of_nat (length entries) = limit)
  | (_, code) => code = 500%Z
  end.
Proof.
  unfold list_businesses, select_page.
  destruct (decide _) as [[Hl Ho]|]; [|done].
  destruct (mapM _ _) as [business_list|] eqn:Hmap; [|done].
  apply length_mapM in Hmap. rewrite <- Hmap. split; [done|].
  split; [rewrite length_take; lia|]. by case_decide.
Qed.

(** With a non-negative limit and offset and numeric zip codes, the page is
    produced. *)
Lemma mysql_list_businesses_total offset limit d :
  (0 ≤ limit)%Z → (0 ≤ offset)%Z →
  (∀ b, b ∈ businesses d → is_Some (py_int drv (VStr (b_zip_code b)))) →
  ∃ entries next,
    list_businesses drv ctx offset limit d = (BPage entries next, 200%Z) ∧
    length entries =
      length (take (Z.to_nat limit) (drop (Z.to_nat offset) (businesses d))).
Proof.
  intros Hl Ho Hzip. unfold list_businesses, select_page.
  rewrite decide_True by done.
  destruct (mapM _ _) as [business_list|] eqn:Hmap.
  - eexists _, _. split; [done|]. apply length_mapM in Hmap. rewrite <- Hmap.
    rewrite !length_take, !length_drop. by rewrite order_by_id_length.
  - exfalso. apply eq_None_not_Some in Hmap. apply Hmap.
    apply mapM_is_Some. apply Forall_forall. intros b Hb.
    apply subseteq_take, subseteq_drop in Hb.
    unfold order_by_id in Hb. rewrite merge_sort_Permutation in Hb.
    unfold compose, business_json. destruct (Hzip b Hb) as [z ->]. by eexists.
Qed.

(** The filtered listings answer 404 when nothing matches. *)
Lemma mysql_list_businesses_for_owner_empty owner_id d :
  (∀ b, b ∈ businesses d → b_owner_id b ≠ owner_id) →
  list_businesses_for_owner drv ctx owner_id d
  = (BError "No businesses found for this owner", 404%Z).
Proof.
  intros Hno. unfold list_businesses_for_owner.
  rewrite filter_none; [done|]. intros b Hb. by apply Hno.
Qed.

Lemma mysql_get_reviews_for_user_empty user_id d :
  (∀ r, r ∈ review d → r_user_id r ≠ user_id) →
  get_reviews_for_user ctx user_id d = (BList [], 404%Z).
Proof.
  intros Hno. unfold get_reviews_for_user.
  rewrite filter_none; [done|]. intros r Hr. by apply Hno.
Qed.

End mysql_handlers.

(** ** Assignment 4: the state token *)

Section oauth_flow.
Import Py Datastore OAuth.
Variable idp : provider.

Lemma oauth_issued_zero st (m : gmap Z obj) :
  issued st m = 0 ↔ ∀ k e, m !! k = Some e → e !! "state" ≠ Some (VStr st).
Proof.
  unfold issued. rewrite length_zero_iff_nil, fetch_nil.
  split; intros Hno k e Hk Hm; apply (Hno k e Hk).
  - by apply matches_one.
  - by apply matches_one in Hm.
Qed.

Lemma oauth_issued_delete st (m : gmap Z obj) k e :
  m !! k = Some e → e !! "state" = Some (VStr st) →
  S (issued st (delete k m)) = issued st m.
Proof.
  intros Hk He. unfold issued, fetch.
  rewrite <- (map_to_list_delete m k e Hk), filter_cons.
  rewrite decide_True; [done|]. by apply matches_one.
Qed.

Lemma oauth_issued_delete_other st (m : gmap Z obj) k e :
  m !! k = Some e → e !! "state" ≠ Some (VStr st) →
  issued st (delete k m) = issued st m.
Proof.
  intros Hk He. unfold issued, fetch.
  rewrite <- (map_to_list_delete m k e Hk), filter_cons.
  rewrite decide_False; [done|]. by intros ?%matches_one.
Qed.

Lemma oauth_issued_store_state st new_id (m : gmap Z obj) :
  m !! new_id = None → issued st (store_state new_id st m) = S (issued st m).
Proof.
  intros Hk. unfold issued, fetch, store_state, put.
  rewrite (map_to_list_insert m new_id _ Hk), filter_cons.
  rewrite decide_True; [done|]. apply matches_one. simpl. apply lookup_singleton_eq.
Qed.

Lemma oauth_verify_state_reject st (m : gmap Z obj) :
  issued st m = 0 → verify_state st m = (false, m).
Proof.
  unfold issued, verify_state. rewrite length_zero_iff_nil. by intros ->.
Qed.

Lemma oauth_verify_state_consume st (m : gmap Z obj) :
  issued st m ≠ 0 →
  ∃ k e, m !! k = Some e ∧ e !! "state" = Some (VStr st) ∧
         verify_state st m = (true, delete k m).
Proof.
  unfold issued, verify_state.
  destruct (fetch _ m) as [|[k e] rs] eqn:Hf; [done|]. intros _.
  assert ((k, e) ∈ fetch [("state", VStr st)] m) as Hin by (rewrite Hf; left).
  apply elem_of_fetch in Hin as [Hk Hm%matches_one]. by exists k, e.
Qed.

(** A callback without a usable state, or with one that no stored token
    carries, is rejected and changes nothing. *)
Lemma oauth_callback_rejected code state (m : gmap Z obj) :
  state = None ∨ state = Some "" ∨ (∃ st, state = Some st ∧ issued st m = 0) →
  oauth_callback idp code state m = (state_failed, m).
Proof.
  intros [->|[->|(st & -> & Hzero)]]; [done..|].
  unfold oauth_callback. rewrite (oauth_verify_state_reject st m Hzero).
  by destruct st as [|c st].
Qed.

(** A callback whose state a stored token carries passes verification and
    deletes one such token. *)
Lemma oauth_callback_consumed code st (m : gmap Z obj) :
  st ≠ "" → issued st m ≠ 0 →
  ∃ k e, m !! k = Some e ∧ e !! "state" = Some (VStr st) ∧
         (oauth_callback idp code (Some st) m).2 = delete k m ∧
         (oauth_callback idp code (Some st) m).1 ≠ state_failed ∧
         S (issued st (delete k m)) = issued st m.
Proof.
  intros Hne Hissued.
  destruct (oauth_verify_state_consume st m Hissued) as (k & e & Hk & He & Hv).
  exists k, e. split; [done|]. split; [done|].
  assert (verify_state st m = (true, delete k m) →
          (oauth_callback idp code (Some st) m).2 = delete k m ∧
          (oauth_callback idp code (Some st) m).1 ≠ state_failed) as Hcb.
  { unfold oauth_callback. destruct st as [|c st]; [done|]. intros ->. simpl.
    destruct (exchange idp code) as [[|c' tok]|]; [done| |done].
    by destruct (people_me idp _) as [given family]. }
  destruct (Hcb Hv) as [-> ?]. split; [done|]. split; [done|].
  by eapply oauth_issued_delete.
Qed.

(** The only changes a callback makes to the stored tokens: none, or the
    deletion of one token that carries the presented state. *)
Lemma oauth_callback_store code state (m : gmap Z obj) :
  (oauth_callback idp code state m).2 = m ∨
  ∃ st k e, state = Some st ∧ m !! k = Some e ∧ e !! "state" = Some (VStr st) ∧
            (oauth_callback idp code state m).2 = delete k m.
Proof.
  destruct state as [st|]; [|by left].
  destruct (decide (st = "")) as [->|Hne]; [by left|].
  destruct (decide (issued st m = 0)) as [Hz|Hnz].
  - left. rewrite oauth_callback_rejected; [done|]. right. right. by exists st.
  - right. destruct (oauth_callback_consumed code st m Hne Hnz)
      as (k & e & Hk & He & Hm & _). by exists st, k, e.
Qed.

(** A state that no stored token carries stays so until it is issued
    again. *)
Lemma oauth_handle_unissued st r (m : gmap Z obj) :
  issued st m = 0 → (∀ new_id, r ≠ Welcome new_id st) →
  issued st (handle idp r m).2 = 0.
Proof.
  rewrite !oauth_issued_zero. intros Hno Hr. destruct r as [new_id st'|code state].
  - simpl. unfold store_state, put. intros k e.
    rewrite lookup_insert. case_decide; [|by apply Hno].
    intros [= <-]. rewrite lookup_singleton_eq. intros [= ->]. by apply (Hr new_id).
  - simpl. destruct (oauth_callback_store code state m)
      as [->|(st' & k' & e' & _ & _ & _ & ->)]; [done|].
    intros k e [_ Hk]%lookup_delete_Some. by apply (Hno k).
Qed.

Lemma oauth_run_unissued st rs (m : gmap Z obj) :
  issued st m = 0 → (∀ r new_id, r ∈ rs → r ≠ Welcome new_id st) →
  issued st (run idp rs m) = 0.
Proof.
  unfold run. revert m. induction rs as [|r rs IH]; intros m Hz Hrs; [done|].
  simpl. apply IH.
  - apply oauth_handle_unissued; [done|]. intros new_id. apply Hrs. left.
  - intros r' new_id Hin. apply Hrs. by right.
Qed.

End oauth_flow.

(** ** Assignment 5: the bearer token *)

Section jwt_routes.
Import Py Datastore JWT.
Variable lib : jose.


Lemma jwt_verify_malformed req words token :
  authorization req = Some words → words !! 1%nat = Some token →
  get_unverified_header lib token = None →
  verify_jwt lib req = Some None.
Proof. unfold verify_jwt. intros -> Htok Hhdr. rewrite Htok. simpl. by rewrite Hhdr. Qed.

Lemma jwt_verify_hs256 req words token header :
  authorization req = Some words → words !! 1%nat = Some token →
  get_unverified_header lib token = Some header →
  header !! "alg" = Some (VStr "HS256") →
  verify_jwt lib req = Some None.
Proof.
  unfold verify_jwt. intros -> Htok Hhdr Halg. rewrite Htok. simpl.
  by rewrite Hhdr, Halg.
Qed.

(** A payload comes only from a successful [jwt.decode] of the token in the
    header. *)
Lemma jwt_verify_payload req payload :
  verify_jwt lib req = Some (Some payload) →
  ∃ words token rsa_key,
    authorization req = Some words ∧ words !! 1%nat = Some token ∧
    decode lib token rsa_key = Some payload.
Proof.
  unfold verify_jwt. destruct (authorization req) as [words|]; [|done].
  destruct (words !! 1%nat) as [token|] eqn:Htok; [|done]. simpl.
  destruct (get_unverified_header lib token) as [header|]; [|done].
  destruct (header !! "alg") as [alg|]; [|done]. simpl.
  case_decide; [done|].
  destruct (find_rsa_key _ _ _) as [rsa_key|]; [|done]. simpl.
  destruct (dict_truthy rsa_key); [|done]. intros [= Hd]. by exists words, token, rsa_key.
Qed.

(** GET /businesses/{id} with a verified token of another subject. *)
Lemma jwt_get_business_mismatch id req (m : gmap Z obj) payload sub business owner_id :
  verify_jwt lib req = Some (Some payload) →
  payload !! "sub" = Some sub →
  m !! id = Some business →
  business !! "owner_id" = Some owner_id →
  sub ≠ owner_id →
  get_business lib id req m = (BError "No business with this business_id exists", 403%Z).
Proof.
  intros Hv Hsub Hb Ho Hne. unfold get_business. rewrite Hv. simpl. rewrite Hb.
  rewrite (dict_truthy_lookup _ _ _ Ho). simpl. rewrite Hsub, Ho.
  by rewrite decide_True.
Qed.

(** GET /businesses/{id} answers with the business only to its owner. *)
Lemma jwt_get_business_data id req (m : gmap Z obj) o :
  get_business lib id req m = (BObj o, 200%Z) →
  ∃ payload business sub,
    verify_jwt lib req = Some (Some payload) ∧ m !! id = Some business ∧
    payload !! "sub" = Some sub ∧ business !! "owner_id" = Some sub.
Proof.
  unfold get_business. destruct (verify_jwt lib req) as [[payload|]|]; [|done..].
  simpl. destruct (m !! id) as [business|]; [|done].
  destruct (negb _); [done|].
  destruct (payload !! "sub") as [sub|] eqn:Hs; [|done].
  destruct (business !! "owner_id") as [owner_id|] eqn:Ho; [|done].
  case_decide as Hd; [done|]. intros _. subst owner_id.
  by exists payload, business, sub.
Qed.


Lemma jwt_business_entry_anonymous base_url (r : Z * obj) :
  business_entry base_url VNull r !! "inspection_score" = Some VNull ∧
  business_entry base_url VNull r !! "id" = Some (VInt r.1).
Proof. done. Qed.


(** An Authorization header without a second word makes [verify_jwt] raise;
    the listing then fails with 500. *)
Lemma jwt_businesses_list_short_header req (m : gmap Z obj) words :
  authorization req = Some words → words !! 1%nat = None →
  verify_jwt lib req = None ∧ businesses_list lib req m = crashed.
Proof.
  intros Hauth Hwords. unfold businesses_list, verify_jwt.
  by rewrite Hauth, Hwords.
Qed.

End jwt_routes.

(** ** Assignment 3: the database invariant *)

Section mysql_invariant.
Import Py MySQL.
Variable drv : driver.
Variable ctx : context.
Hypothesis drv_coherent : coherent drv.

Lemma mysql_empty_db_inv : db_inv empty_db.
Proof.
  repeat split; simpl; try apply NoDup_nil_2; by intros ? ?%not_elem_of_nil.
Qed.

Lemma fmap_replace {A B} (f : A → B) (P : A → Prop) `{∀ x, Decision (P x)}
    (y : A) (l : list A) :
  (∀ x, x ∈ l → P x → f y = f x) →
  f <$> ((λ x, if decide (P x) then y else x) <$> l) = f <$> l.
Proof.
  intros Hy. rewrite <- list_fmap_compose. apply list_fmap_ext.
  intros i x Hx. simpl. case_decide; [|done].
  apply Hy; [|done]. by eapply list_elem_of_lookup_2.
Qed.

Lemma NoDup_fmap_filter {A B} (f : A → B) (P : A → Prop) `{∀ x, Decision (P x)}
    (l : list A) :
  NoDup (f <$> l) → NoDup (f <$> filter P l).
Proof.
  intros Hnd. eapply (sublist_NoDup (f <$> filter P l)); [exact Hnd|].
  apply fmap_sublist, sublist_filter.
Qed.

Lemma NoDup_fmap_snoc {A B} (f : A → B) (l : list A) (y : A) :
  NoDup (f <$> l) → (∀ x, x ∈ l → f x ≠ f y) → NoDup (f <$> (l ++ [y])).
Proof.
  intros Hnd Hy. rewrite fmap_app. apply NoDup_app. split; [done|]. split.
  - intros b [x [-> Hx]]%list_elem_of_fmap Hin.
    apply list_elem_of_singleton in Hin. by apply (Hy x).
  - apply NoDup_singleton.
Qed.

Lemma mysql_create_businesses_inv content d :
  db_inv d → db_inv (create_businesses drv ctx content d).2.
Proof.
  intros Hinv. unfold create_businesses.
  destruct (missing _ _); [|done].
  destruct (business_params _ _ _) as [row|] eqn:Hrow; [|done].
  destruct (business_echo _ _ _ _); [|done]. simpl.
  assert (b_id row = next_business_id d) as Hid.
  { unfold business_params in Hrow. by simplify_option_eq. }
  destruct Hinv as [(Hpk & Hrk & Hfk & Hpair) [Hcb Hcr]].
  split; [split; [|split; [|split]]|split]; simpl; try done.
  - apply NoDup_fmap_snoc; [done|]. intros x Hx. specialize (Hcb x Hx). lia.
  - intros r Hr. destruct (Hfk r Hr) as (b & Hb & Hbid).
    exists b. split; [|done]. apply elem_of_app. by left.
  - intros b [Hb| ->%list_elem_of_singleton]%elem_of_app; [|lia].
    specialize (Hcb b Hb). lia.
Qed.

Lemma mysql_edit_business_inv business_id content d :
  db_inv d → db_inv (edit_business drv ctx business_id content d).2.
Proof.
  intros Hinv. unfold edit_business.
  destruct (missing _ _); [|done].
  destruct (one_or_none _) as [[existing|]|]; [|done..].
  destruct (business_params _ _ _) as [row|] eqn:Hrow; [|done].
  destruct (business_echo _ _ _ _); [|done]. simpl.
  assert (b_id row = business_id) as Hid.
  { unfold business_params in Hrow. by simplify_option_eq. }
  assert (b_id <$> ((λ b, if decide (b_id b = business_id) then row else b)
                      <$> businesses d) = b_id <$> businesses d) as Hids.
  { apply fmap_replace. intros x _ Hx. congruence. }
  destruct Hinv as [(Hpk & Hrk & Hfk & Hpair) [Hcb Hcr]].
  split; [split; [|split; [|split]]|split]; simpl; try done.
  - by rewrite Hids.
  - intros r Hr. destruct (Hfk r Hr) as (b & Hb & Hbid).
    assert (r_business_id r ∈ b_id <$> businesses d) as Hin.
    { rewrite <- Hbid. by apply list_elem_of_fmap_2. }
    rewrite <- Hids in Hin. apply list_elem_of_fmap in Hin as (b' & Hb' & Hin).
    by exists b'.
  - intros b [x [-> Hx]]%list_elem_of_fmap.
    case_decide as Hd; [|by apply Hcb]. rewrite Hid, <- Hd. by apply Hcb.
Qed.

Lemma mysql_delete_business_inv business_id d :
  db_inv d → db_inv (delete_business business_id d).2.
Proof.
  intros Hinv. unfold delete_business.
  destruct (one_or_none _) as [[existing|]|]; [|done..]. simpl.
  destruct Hinv as [(Hpk & Hrk & Hfk & Hpair) [Hcb Hcr]].
  split; [split; [|split; [|split]]|split]; simpl.
  - by apply NoDup_fmap_filter.
  - by apply NoDup_fmap_filter.
  - intros r [Hne Hr]%list_elem_of_filter. destruct (Hfk r Hr) as (b & Hb & Hbid).
    exists b. split; [|done]. apply list_elem_of_filter. split; [congruence|done].
  - by apply NoDup_fmap_filter.
  - intros b [_ Hb]%list_elem_of_filter. by apply Hcb.
  - intros r [_ Hr]%list_elem_of_filter. by apply Hcr.
Qed.

Lemma mysql_create_review_inv content d :
  db_inv d → db_inv (create_review drv ctx content d).2.
Proof.
  intros Hinv. unfold create_review.
  destruct (missing _ _); [|done].
  destruct (one_or_none _) as [[business_exists|]|]; [|done..].
  destruct (one_or_none (select_review_pair _ _ _ _)) as [[review_exists|]|] eqn:Hsel;
    [done| |done].
  destruct (review_params _ _ _ _) as [row|] eqn:Hrow; [|done]. simpl.
  unfold review_params in Hrow.
  destruct (bind_int drv (dict_get content "user_id")) as [u|] eqn:Hu; [|done].
  destruct (bind_int drv (dict_get content "business_id")) as [b|] eqn:Hb; [|done].
  simpl in Hrow.
  destruct (bind_int drv (dict_get content "stars")) as [stars|]; [|done].
  simpl in Hrow.
  destruct (bind_text drv _) as [text|]; [|done]. simpl in Hrow.
  case_guard as Hfk'; [|done]. simpl in Hrow. injection Hrow as <-.
  assert (select_review_pair drv (dict_get content "user_id")
            (dict_get content "business_id") d = []) as Hnone.
  { destruct (select_review_pair _ _ _ _) as [|? [|? ?]]; done. }
  unfold select_review_pair in Hnone.
  rewrite (drv_coherent _ _ Hu), (drv_coherent _ _ Hb) in Hnone.
  destruct Hinv as [(Hpk & Hrk & Hfk & Hpair) [Hcb Hcr]].
  split; [split; [|split; [|split]]|split]; simpl; try done.
  - apply NoDup_fmap_snoc; [done|]. simpl. intros x Hx. specialize (Hcr x Hx). lia.
  - intros r [Hr| ->%list_elem_of_singleton]%elem_of_app; [by apply Hfk|]. simpl.
    unfold select_business in Hfk'.
    destruct (filter _ (businesses d)) as [|x xs] eqn:Hf; [done|].
    assert (x ∈ filter (λ y, b_id y = b) (businesses d)) as Hx by (rewrite Hf; left).
    apply list_elem_of_filter in Hx as [Hx1 Hx2]. by exists x.
  - apply NoDup_fmap_snoc; [done|]. simpl. intros x Hx [= Hxu Hxb].
    eapply (filter_nil_not_elem_of _ _ x Hnone); [|done]. done.
  - intros r [Hr| ->%list_elem_of_singleton]%elem_of_app; simpl; [|lia].
    specialize (Hcr r Hr). lia.
Qed.

Lemma mysql_update_review_inv review_id content d :
  db_inv d → db_inv (update_review drv ctx review_id content d).2.
Proof.
  intros Hinv. unfold update_review.
  destruct (content !! "stars"); [|done].
  destruct (one_or_none _) as [[r0|]|] eqn:Hsel; [|done..].
  destruct (review_update _ _ _) as [updated|] eqn:Hupd; [|done]. simpl.
  assert (r0 ∈ review d ∧ r_id r0 = review_id) as [Hr0 Hr0id].
  { unfold select_review in Hsel.
    destruct (filter _ (review d)) as [|x [|? ?]] eqn:Hf; try done.
    injection Hsel as ->.
    assert (r0 ∈ filter (λ r, r_id r = review_id) (review d)) as Hx
      by (rewrite Hf; left).
    by apply list_elem_of_filter in Hx as [? ?]. }
  assert (r_id updated = r_id r0 ∧ r_user_id updated = r_user_id r0 ∧
          r_business_id updated = r_business_id r0) as (Hi & Hu & Hb).
  { unfold review_update in Hupd. by simplify_option_eq. }
  destruct Hinv as [(Hpk & Hrk & Hfk & Hpair) [Hcb Hcr]].
  assert (NoDup (r_id <$> review d)) as Hrk' by done.
  assert (∀ x, x ∈ review d → r_id x = review_id → x = r0) as Huniq.
  { intros x Hx Hxid.
    assert (filter (λ y, r_id y = review_id) (review d) = [r0]) as Hone
      by (by apply filter_unique).
    assert (x ∈ filter (λ y, r_id y = review_id) (review d)) as Hxin
      by (by apply list_elem_of_filter).
    rewrite Hone in Hxin. by apply list_elem_of_singleton in Hxin. }
  assert (∀ x, x ∈ review d → r_id x = review_id →
               r_id updated = r_id x ∧ r_user_id updated = r_user_id x ∧
               r_business_id updated = r_business_id x) as Hsame.
  { intros x Hx Hd. by rewrite (Huniq x Hx Hd). }
  split; [split; [|split; [|split]]|split]; simpl; try done.
  - rewrite fmap_replace; [done|]. intros x Hx Hd. by apply Hsame.
  - intros x [y [-> Hy]]%list_elem_of_fmap.
    destruct (Hfk y Hy) as (b & Hbin & Hbid). exists b. split; [done|].
    case_decide as Hd; [|done]. destruct (Hsame y Hy Hd) as (_ & _ & Hyb). congruence.
  - rewrite fmap_replace; [done|]. intros x Hx Hd.
    destruct (Hsame x Hx Hd) as (_ & -> & ->). done.
  - intros x [y [-> Hy]]%list_elem_of_fmap.
    case_decide as Hd; [|by apply Hcr].
    destruct (Hsame y Hy Hd) as (-> & _). by apply Hcr.
Qed.

Lemma mysql_delete_review_inv review_id d :
  db_inv d → db_inv (delete_review review_id d).2.
Proof.
  intros Hinv. unfold delete_review.
  destruct (one_or_none _) as [[r0|]|]; [|done..]. simpl.
  destruct Hinv as [(Hpk & Hrk & Hfk & Hpair) [Hcb Hcr]].
  split; [split; [|split; [|split]]|split]; simpl; try done.
  - by apply NoDup_fmap_filter.
  - intros r [_ Hr]%list_elem_of_filter. by apply Hfk.
  - by apply NoDup_fmap_filter.
  - intros r [_ Hr]%list_elem_of_filter. by apply Hcr.
Qed.

Lemma mysql_handle_inv q d : db_inv d → db_inv (handle drv ctx q d).2.
Proof.
  destruct q; simpl;
    eauto using mysql_create_businesses_inv, mysql_edit_business_inv,
      mysql_delete_business_inv, mysql_create_review_inv,
      mysql_update_review_inv, mysql_delete_review_inv.
Qed.

Lemma mysql_run_inv qs d : db_inv d → db_inv (run drv ctx qs d).
Proof.
  unfold run. revert d. induction qs as [|q qs IH]; intros d Hd; [done|].
  simpl. apply IH. by apply mysql_handle_inv.
Qed.

(** Every database the service reaches from the empty tables keeps the
    schema's constraints and has at most one review per user and
    business. *)
Lemma mysql_reachable_ok d : reachable drv ctx d → db_ok d.
Proof. intros [qs <-]. apply mysql_run_inv, mysql_empty_db_inv. Qed.

End mysql_invariant.

(** * The specification's claims *)

Section claims.
Import Py Datastore.

(** C1, as the specification states it, fails: a verified token of subject
    "bob" reading the business of "alice" is answered 403, not 404. *)
Lemma jwt_get_business_other_owner_not_404 :
  JWT.verify_jwt Sample.lib Sample.bob_request
    = Some (Some {[ "sub" := VStr "bob" ]}) ∧
  Sample.jwt_store !! 1%Z = Some Sample.alice_business ∧
  Sample.alice_business !! "owner_id" = Some (VStr "alice") ∧
  status (JWT.get_business Sample.lib 1 Sample.bob_request Sample.jwt_store) = 403%Z ∧
  status (JWT.get_business Sample.lib 1 Sample.bob_request Sample.jwt_store) ≠ 404%Z.
Proof. repeat split; done. Qed.

(** C1 (amended): under the JWT variant, GET /businesses/{id} with a
    verified token whose [sub] differs from the stored business's
    [owner_id] is answered 403 with the error "No business with this
    business_id exists"; the business data is not returned. *)
Theorem jwt_get_business_other_owner
    lib id req (m : gmap Z obj) payload sub business owner_id :
  JWT.verify_jwt lib req = Some (Some payload) →
  payload !! "sub" = Some sub →
  m !! id = Some business →
  business !! "owner_id" = Some owner_id →
  sub ≠ owner_id →
  JWT.get_business lib id req m
  = (BError "No business with this business_id exists", 403%Z) ∧
  JWT.get_business lib id req (delete id m) = JWT.get_business lib id req m.
Proof.
  intros Hv Hsub Hb Ho Hne.
  rewrite (jwt_get_business_mismatch lib id req m payload sub business owner_id)
    by done.
  split; [done|]. unfold JWT.get_business. rewrite Hv. simpl.
  by rewrite lookup_delete_eq.
Qed.

Lemma jwt_get_business_other_owner_witness :
  JWT.get_business Sample.lib 1 Sample.bob_request Sample.jwt_store
  = (BError "No business with this business_id exists", 403%Z).
Proof.
  apply (jwt_get_business_other_owner Sample.lib 1%Z Sample.bob_request
           Sample.jwt_store {[ "sub" := VStr "bob" ]} (VStr "bob")
           Sample.alice_business (VStr "alice")); by vm_compute.
Defined.




Lemma sample_gae_store_ok : GAE.store_ok Sample.gae_store.
Proof. apply gae_reachable_ok. by exists Sample.gae_requests. Qed.



(** C3: DELETE /businesses/{id} on a stored business is answered 204;
    afterwards the store holds no review with that business_id, the query
    for them is empty and the business itself is gone. *)
Theorem delete_business_cascades :
  (∀ business_id s (e : obj),
     GAE.store_ok s → GAE.businesses s !! business_id = Some e →
     ∃ s', GAE.delete_business_by_id business_id s = ((BEmpty, 204%Z), s') ∧
           GAE.businesses s' !! business_id = None ∧
           (∀ k (r : obj), GAE.reviews s' !! k = Some r →
                           r !! "business_id" ≠ Some (VInt business_id)) ∧
           fetch [("business_id", VInt business_id)] (GAE.reviews s') = [] ∧
           GAE.get_business_by_id business_id s' = GAE.entity_not_found "business") ∧
  (∀ drv ctx d b,
     NoDup (MySQL.b_id <$> MySQL.businesses d) → b ∈ MySQL.businesses d →
     ∃ d', MySQL.delete_business (MySQL.b_id b) d = ((BEmpty, 204%Z), d') ∧
           MySQL.select_business (MySQL.b_id b) d' = [] ∧
           (∀ r, r ∈ MySQL.review d' → MySQL.r_business_id r ≠ MySQL.b_id b) ∧
           filter (λ r, MySQL.r_business_id r = MySQL.b_id b) (MySQL.review d') = [] ∧
           MySQL.get_business drv ctx (MySQL.b_id b) d'
           = (BError MySQL.no_business, 404%Z)).
Proof.
  split.
  - apply gae_delete_business_cascade.
  - apply mysql_delete_business_cascade.
Qed.

Lemma delete_business_cascades_witness :
  (∃ s', GAE.delete_business_by_id 1 Sample.gae_store = ((BEmpty, 204%Z), s') ∧
         fetch [("business_id", VInt 1)] (GAE.reviews s') = []) ∧
  (∃ d', MySQL.delete_business 1 Sample.db = ((BEmpty, 204%Z), d') ∧
         filter (λ r, MySQL.r_business_id r = 1%Z) (MySQL.review d') = []).
Proof.
  split.
  - destruct (proj1 delete_business_cascades 1%Z Sample.gae_store Sample.business_data)
      as (s' & Hr & _ & _ & Hq & _);
      [apply sample_gae_store_ok | by vm_compute | by exists s'].
  - destruct (proj2 delete_business_cascades Sample.drv Sample.ctx Sample.db
                (MySQL.BusinessRow 1 1 "A" "1 St" "X" "WA" "98101"))
      as (d' & Hr & _ & _ & Hq & _);
      [apply NoDup_singleton | left | by exists d'].
Defined.




(** C5: GET /businesses answers either with a page of at most [limit]
    entries whose [next] is set exactly when the page holds [limit] entries,
    or, when the query or a row conversion fails, with 500 and no page; with
    a non-negative limit and offset and numeric zip codes the page is
    produced. *)
Theorem list_businesses_limit_next :
  (∀ drv ctx offset limit d,
     match MySQL.list_businesses drv ctx offset limit d with
     | (BPage entries next, code) =>
         code = 200%Z ∧ (Z.of_nat (length entries) ≤ limit)%Z ∧
         (next ≠ None ↔ Z.of_nat (length entries) = limit)
     | (_, code) => code = 500%Z
     end) ∧
  (∀ drv ctx offset limit d,
     (0 ≤ limit)%Z → (0 ≤ offset)%Z →
     (∀ b, b ∈ MySQL.businesses d →
           is_Some (MySQL.py_int drv (VStr (MySQL.b_zip_code b)))) →
     ∃ entries next,
       MySQL.list_businesses drv ctx offset limit d = (BPage entries next, 200%Z) ∧
       length entries
       = length (take (Z.to_nat limit) (drop (Z.to_nat offset) (MySQL.businesses d)))).
Proof.
  split.
  - apply mysql_list_businesses_page.
  - apply mysql_list_businesses_total.
Qed.

Lemma list_businesses_limit_next_witness :
  ∃ entries next,
    MySQL.list_businesses Sample.drv Sample.ctx 0 1 Sample.db
    = (BPage entries next, 200%Z) ∧ length entries = 1.
Proof.
  apply (proj2 list_businesses_limit_next Sample.drv Sample.ctx 0%Z 1%Z Sample.db);
    [done..|].
  intros b ->%list_elem_of_singleton. vm_compute. by eexists.
Defined.

(** C6, as the specification states it, fails: with no stored rows the
    MySQL service answers both filtered listings with 404. *)
Lemma mysql_list_empty_not_200 :
  MySQL.list_businesses_for_owner Sample.drv Sample.ctx 1 MySQL.empty_db
    = (BError "No businesses found for this owner", 404%Z) ∧
  MySQL.get_reviews_for_user Sample.ctx 1 MySQL.empty_db = (BList [], 404%Z) ∧
  status (MySQL.list_businesses_for_owner Sample.drv Sample.ctx 1 MySQL.empty_db)
    ≠ 200%Z ∧
  status (MySQL.get_reviews_for_user Sample.ctx 1 MySQL.empty_db) ≠ 200%Z.
Proof. repeat split; done. Qed.

(** C6 (amended): when no records match, the Datastore service answers
    GET /owners/{owner_id}/businesses and GET /users/{user_id}/reviews with
    200 and an empty list; the MySQL service answers them with 404, the
    first with an error body and the second with an empty list. *)
Theorem list_no_match_status :
  (∀ owner_id s,
     (∀ k (e : obj), GAE.businesses s !! k = Some e →
                     e !! "owner_id" ≠ Some (VInt owner_id)) →
     GAE.list_businesses_for_owner owner_id s = (BList [], 200%Z)) ∧
  (∀ user_id s,
     (∀ k (e : obj), GAE.reviews s !! k = Some e →
                     e !! "user_id" ≠ Some (VInt user_id)) →
     GAE.list_reviews_for_user user_id s = (BList [], 200%Z)) ∧
  (∀ drv ctx owner_id d,
     (∀ b, b ∈ MySQL.businesses d → MySQL.b_owner_id b ≠ owner_id) →
     MySQL.list_businesses_for_owner drv ctx owner_id d
     = (BError "No businesses found for this owner", 404%Z)) ∧
  (∀ ctx user_id d,
     (∀ r, r ∈ MySQL.review d → MySQL.r_user_id r ≠ user_id) →
     MySQL.get_reviews_for_user ctx user_id d = (BList [], 404%Z)).
Proof.
  split; [|split; [|split]].
  - apply gae_list_businesses_for_owner_empty.
  - apply gae_list_reviews_for_user_empty.
  - apply mysql_list_businesses_for_owner_empty.
  - apply mysql_get_reviews_for_user_empty.
Qed.

Lemma list_no_match_status_witness :
  GAE.list_businesses_for_owner 3 GAE.empty_store = (BList [], 200%Z) ∧
  GAE.list_reviews_for_user 3 GAE.empty_store = (BList [], 200%Z) ∧
  MySQL.list_businesses_for_owner Sample.drv Sample.ctx 3 Sample.db
    = (BError "No businesses found for this owner", 404%Z) ∧
  MySQL.get_reviews_for_user Sample.ctx 3 Sample.db = (BList [], 404%Z).
Proof.
  destruct list_no_match_status as (Hgo & Hgu & Hmo & Hmu).
  split; [|split; [|split]].
  - apply Hgo. intros k e. simpl. by rewrite lookup_empty.
  - apply Hgu. intros k e. simpl. by rewrite lookup_empty.
  - apply Hmo. by intros b ->%list_elem_of_singleton.
  - apply Hmu. by intros r ->%list_elem_of_singleton.
Defined.

(** C7 fails on the Datastore service: PUT /businesses/1 for the stored
    business 1 with a body that lacks "name" is answered 404, through
    [entity_not_found], and not 400. *)
Theorem gae_edit_business_missing_field_404 :
  Sample.nameless_data !! "name" = None ∧
  is_Some (GAE.businesses Sample.gae_store !! 1%Z) ∧
  GAE.edit_business 1 Sample.nameless_data Sample.gae_store
  = ((BError "No ['name'] with this business_id exists", 404%Z), Sample.gae_store).
Proof. split; [done|]. split; [by eexists|]. by vm_compute. Qed.

(** C8: a callback without a state, with an empty one, or with one that no
    stored token carries is answered 400 and changes nothing; a callback
    whose state a stored token carries passes verification and deletes one
    such token; once the only token carrying a state is consumed, every
    later callback with that state is answered 400, as long as the state is
    not issued again; a callback changes the stored tokens in no other
    way. *)
Theorem oauth_state_single_use idp :
  status OAuth.state_failed = 400%Z ∧
  (∀ code state (m : gmap Z obj),
     state = None ∨ state = Some "" ∨
     (∃ st, state = Some st ∧ OAuth.issued st m = 0) →
     OAuth.oauth_callback idp code state m = (OAuth.state_failed, m)) ∧
  (∀ code st (m : gmap Z obj),
     st ≠ "" → OAuth.issued st m ≠ 0 →
     ∃ k (e : obj),
       m !! k = Some e ∧ e !! "state" = Some (VStr st) ∧
       OAuth.verify_state st m = (true, delete k m) ∧
       (OAuth.oauth_callback idp code (Some st) m).2 = delete k m ∧
       (OAuth.oauth_callback idp code (Some st) m).1 ≠ OAuth.state_failed ∧
       S (OAuth.issued st (delete k m)) = OAuth.issued st m) ∧
  (∀ code code' st rs (m : gmap Z obj),
     st ≠ "" → OAuth.issued st m = 1 →
     (∀ r new_id, r ∈ rs → r ≠ OAuth.Welcome new_id st) →
     let m1 := (OAuth.oauth_callback idp code (Some st) m).2 in
     let m2 := OAuth.run idp rs m1 in
     OAuth.oauth_callback idp code' (Some st) m2 = (OAuth.state_failed, m2)) ∧
  (∀ code state (m : gmap Z obj),
     (OAuth.oauth_callback idp code state m).2 = m ∨
     ∃ st k (e : obj),
       state = Some st ∧ m !! k = Some e ∧ e !! "state" = Some (VStr st) ∧
       (OAuth.oauth_callback idp code state m).2 = delete k m).
Proof.
  split; [done|]. split; [apply oauth_callback_rejected|]. split; [|split].
  - intros code st m Hne Hissued.
    destruct (oauth_callback_consumed idp code st m Hne Hissued)
      as (k & e & Hk & He & Hm & Hr & Hn).
    exists k, e. repeat (split; [done|]). split; [|done].
    destruct (oauth_verify_state_consume st m Hissued) as (k' & e' & _ & _ & Hv).
    rewrite Hv. f_equal. rewrite <- Hm. unfold OAuth.oauth_callback.
    destruct st as [|c st]; [done|]. rewrite Hv. simpl.
    destruct (OAuth.exchange idp code) as [[|c' tok]|]; [done| |done].
    by destruct (OAuth.people_me idp _).
  - intros code code' st rs m Hne Hone Hrs m1 m2.
    apply oauth_callback_rejected. right. right. exists st. split; [done|].
    apply oauth_run_unissued; [|done].
    destruct (oauth_callback_consumed idp code st m Hne) as (k & e & _ & _ & Hm & _ & Hn);
      [by rewrite Hone|].
    unfold m1. rewrite Hm. rewrite Hone in Hn. by injection Hn.
  - apply oauth_callback_store.
Qed.

Lemma oauth_state_single_use_witness :
  let m1 := (OAuth.oauth_callback Sample.idp (Some "c") (Some "abc") Sample.tokens).2 in
  let m2 := OAuth.run Sample.idp [OAuth.Welcome 2 "xyz"] m1 in
  OAuth.oauth_callback Sample.idp (Some "d") (Some "abc") m2 = (OAuth.state_failed, m2).
Proof.
  apply (proj1 (proj2 (proj2 (proj2 (oauth_state_single_use Sample.idp))))
           (Some "c") (Some "d") "abc" [OAuth.Welcome 2 "xyz"] Sample.tokens);
    [done | by vm_compute |].
  intros r new_id ->%list_elem_of_singleton. done.
Defined.

(** C9: POST /businesses with all required fields is answered 201 with the
    payload and the id the store assigned, an integer and so not null; GET
    /businesses/{id} with that id is then answered 200 with the same
    record. *)
Theorem gae_create_business_then_get new_id (data : obj) s :
  Forall (λ f, is_Some (data !! f))
    ["owner_id"; "name"; "street_address"; "state"; "city"; "zip_code"] →
  ∃ (created : obj) s',
    GAE.create_business new_id data s = ((BObj created, 201%Z), s') ∧
    created !! "id" = Some (VInt new_id) ∧
    created !! "id" ≠ Some VNull ∧
    (∀ f, f ≠ "id" → created !! f = data !! f) ∧
    GAE.get_business_by_id new_id s' = (BObj created, 200%Z).
Proof.
  intros Hfields.
  destruct (gae_create_then_get new_id data s Hfields) as (s' & Hc & Hg).
  exists (<["id" := VInt new_id]> data), s'. split; [done|].
  rewrite lookup_insert_eq. split; [done|]. split; [done|]. split; [|done].
  intros f Hf. by rewrite lookup_insert_ne.
Qed.

Lemma gae_create_business_then_get_witness :
  ∃ (created : obj) s',
    GAE.create_business 1 Sample.business_data GAE.empty_store
      = ((BObj created, 201%Z), s') ∧
    created !! "id" = Some (VInt 1) ∧
    GAE.get_business_by_id 1 s' = (BObj created, 200%Z).
Proof.
  destruct (gae_create_business_then_get 1%Z Sample.business_data GAE.empty_store)
    as (created & s' & Hc & Hid & _ & _ & Hg).
  - repeat constructor; by eexists.
  - by exists created, s'.
Defined.




End claims.

(** * Further properties of the handlers *)

(** ** Assignment 2 *)

Section gae_further.
Import Py Datastore.

(** X1: in every store the Datastore service reaches, each stored review
    names, by integer id, a business that GET /businesses/{id} answers with
    200. *)
Theorem gae_reachable_review_business s k (e : obj) :
  GAE.reachable s → GAE.reviews s !! k = Some e →
  ∃ b (be : obj),
    e !! "business_id" = Some (VInt b) ∧ GAE.businesses s !! b = Some be ∧
    GAE.get_business_by_id b s = (BObj (<["id" := VInt b]> be), 200%Z).
Proof.
  intros Hreach Hk. pose proof (gae_reachable_ok s Hreach) as Hok.
  destruct (proj2 Hok k e Hk) as (_ & b & Hb & [be Hbe]).
  exists b, be. split; [done|]. split; [done|].
  unfold GAE.get_business_by_id.
  rewrite (gae_existing_truthy s b be Hok Hbe). simpl. by rewrite Hbe.
Qed.

Lemma gae_reachable_review_business_witness :
  ∃ b (be : obj),
    Sample.review_data !! "business_id" = Some (VInt b) ∧
    GAE.businesses Sample.gae_store !! b = Some be ∧
    GAE.get_business_by_id b Sample.gae_store = (BObj (<["id" := VInt b]> be), 200%Z).
Proof.
  apply (gae_reachable_review_business Sample.gae_store 7%Z Sample.review_data);
    [by exists Sample.gae_requests | by vm_compute].
Defined.

(** X2: a request the Datastore service answers with an error status
    changes nothing in the store. *)
Theorem gae_error_leaves_store r s :
  (400 ≤ status (GAE.handle r s).1)%Z → (GAE.handle r s).2 = s.
Proof.
  destruct r as [new_id data|business_id|business_id data|new_id data
                 |review_id data|review_id]; simpl.
  - unfold GAE.create_business. destruct (GAE.validate_fields _ _); [|done].
    unfold status, GAE.CREATED. simpl. lia.
  - unfold GAE.delete_business_by_id. destruct (negb _); [done|].
    unfold status, GAE.NO_CONTENT. simpl. lia.
  - unfold GAE.edit_business. destruct (negb _); [done|].
    destruct (GAE.validate_fields _ _); [|done].
    unfold status, GAE.OK. simpl. lia.
  - unfold GAE.create_review. destruct (GAE.validate_fields _ _); [|done].
    destruct (client_key _); [|done]. destruct (negb _); [done|].
    destruct (take 1 _); [|done]. unfold status, GAE.CREATED. simpl. lia.
  - unfold GAE.update_review. destruct (GAE.validate_fields _ _); [|done].
    destruct (negb _); [done|]. unfold status, GAE.OK. simpl. lia.
  - unfold GAE.delete_review. destruct (negb _); [done|].
    unfold status, GAE.NO_CONTENT. simpl. lia.
Qed.

Lemma gae_error_leaves_store_witness :
  (GAE.handle (GAE.PostReview 9 Sample.orphan_review_data) Sample.gae_store).2
  = Sample.gae_store.
Proof.
  apply (gae_error_leaves_store (GAE.PostReview 9 Sample.orphan_review_data)
           Sample.gae_store).
  by vm_compute.
Defined.

(** X3: POST /businesses, POST /reviews and PUT /reviews/{id} answer 400
    exactly when the body lacks one of the handler's required fields. *)
Theorem gae_bad_request_iff :
  (∀ new_id (data : obj) s,
     status (GAE.create_business new_id data s).1 = 400%Z ↔
     ∃ f, f ∈ ["owner_id"; "name"; "street_address"; "state"; "city"; "zip_code"] ∧
          data !! f = None) ∧
  (∀ new_id (data : obj) s,
     status (GAE.create_review new_id data s).1 = 400%Z ↔
     ∃ f, f ∈ ["user_id"; "business_id"; "stars"] ∧ data !! f = None) ∧
  (∀ review_id (data : obj) s,
     status (GAE.update_review review_id data s).1 = 400%Z ↔
     data !! "stars" = None).
Proof.
  assert (∀ (data : obj) fields,
            missing data fields ≠ [] ↔ ∃ f, f ∈ fields ∧ data !! f = None) as Hmiss.
  { intros data fields. split.
    - intros Hne. destruct (missing data fields) as [|f fs] eqn:Hm; [done|].
      exists f. assert (f ∈ missing data fields) as Hin by (rewrite Hm; left).
      unfold missing in Hin. apply list_elem_of_filter in Hin. tauto.
    - intros (f & Hf & Hnone). by apply (missing_cons data fields f). }
  split; [|split].
  - intros new_id data s. rewrite <- Hmiss. unfold GAE.create_business, GAE.validate_fields.
    destruct (missing data _); [by split|]. by split.
  - intros new_id data s. rewrite <- Hmiss. unfold GAE.create_review, GAE.validate_fields.
    destruct (missing data _); [|by split].
    destruct (client_key _); [|by split]. destruct (negb _); [by split|].
    destruct (take 1 _); by split.
  - intros review_id data s.
    assert (data !! "stars" = None ↔ ∃ f, f ∈ ["stars"] ∧ data !! f = None) as ->.
    { split; [intros ?; exists "stars"; split; [left|done]|].
      by intros (f & ->%list_elem_of_singleton & ?). }
    rewrite <- Hmiss. unfold GAE.update_review, GAE.validate_fields.
    destruct (missing data _); [|by split]. destruct (negb _); by split.
Qed.

(** X4: when POST /reviews answers 201, GET /reviews/{id} answers 200 with
    the same record, and the same POST again, whatever id the store would
    assign, answers 409 and changes nothing. *)
Theorem gae_create_review_then_again new_id new_id' (data : obj) s :
  status (GAE.create_review new_id data s).1 = 201%Z →
  let s1 := (GAE.create_review new_id data s).2 in
  (GAE.create_review new_id data s).1 = (BObj (<["id" := VInt new_id]> data), 201%Z) ∧
  GAE.get_review_by_id new_id s1 = (BObj (<["id" := VInt new_id]> data), 200%Z) ∧
  GAE.create_review new_id' data s1 = ((BError GAE.already_reviewed, 409%Z), s1).
Proof.
  unfold GAE.create_review, GAE.validate_fields.
  destruct (missing data _) as [|f fs] eqn:Hmiss; [|done].
  destruct (client_key _) as [key|] eqn:Hkey; [|done].
  destruct (negb _) eqn:Ht; [done|].
  destruct (take 1 _) eqn:Hf; [|done]. intros _. simpl.
  split; [done|].
  apply missing_nil in Hmiss.
  inversion_clear Hmiss as [|? ? [u Hu] Hrest].
  inversion_clear Hrest as [|? ? [v Hv] _].
  split.
  - unfold GAE.get_business_by_id, GAE.get_review_by_id, put. simpl.
    rewrite lookup_insert_eq. simpl. by rewrite (dict_truthy_lookup _ _ _ Hu).
  - rewrite Ht.
    destruct (fetch _ (put new_id data (GAE.reviews s))) as [|r rs] eqn:Hf'; [|done].
    exfalso. eapply fetch_nil; [exact Hf'|apply lookup_insert_eq|].
    unfold matches. repeat constructor; simpl.
    + by rewrite (dict_get_Some _ _ _ Hu).
    + by rewrite (dict_get_Some _ _ _ Hv).
Qed.

Lemma gae_create_review_then_again_witness :
  let s0 := GAE.run [GAE.PostBusiness 1 Sample.business_data] GAE.empty_store in
  let s1 := (GAE.create_review 7 Sample.review_data s0).2 in
  GAE.get_review_by_id 7 s1 = (BObj (<["id" := VInt 7]> Sample.review_data), 200%Z) ∧
  GAE.create_review 8 Sample.review_data s1 = ((BError GAE.already_reviewed, 409%Z), s1).
Proof.
  intros s0 s1.
  apply (gae_create_review_then_again 7%Z 8%Z Sample.review_data s0).
  by vm_compute.
Defined.

(** X5: PUT /reviews/{id} on a stored review with "stars" in the body
    answers 200; it sets "stars", sets "review_text" to the body's value or
    else to the stored one (null when there is none), keeps every other
    stored field whatever the body holds, and GET /reviews/{id} then answers
    with the same record. *)
Theorem gae_update_review_effect review_id (data old : obj) s v :
  GAE.reviews s !! review_id = Some old → old ≠ ∅ → data !! "stars" = Some v →
  ∃ new : obj,
    GAE.update_review review_id data s
    = ((BObj (<["id" := VInt review_id]> new), 200%Z),
       GAE.Store (GAE.businesses s) (<[review_id := new]> (GAE.reviews s))) ∧
    new !! "stars" = Some v ∧
    new !! "review_text"
    = Some (default (dict_get old "review_text") (data !! "review_text")) ∧
    (∀ f, f ≠ "stars" → f ≠ "review_text" → new !! f = old !! f) ∧
    GAE.get_review_by_id review_id (GAE.update_review review_id data s).2
    = (BObj (<["id" := VInt review_id]> new), 200%Z).
Proof.
  intros Hold Hne Hstars. eexists.
  assert (GAE.validate_fields data ["stars"] = []) as Hval.
  { apply missing_nil. repeat constructor. by eexists. }
  unfold GAE.update_review. rewrite Hval. simpl. rewrite Hold. simpl.
  rewrite (proj2 (dict_truthy_true old) Hne). simpl.
  split; [reflexivity|]. split; [|split; [|split]].
  - rewrite (dict_get_Some _ _ _ Hstars).
    apply lookup_union_Some_l. by rewrite lookup_insert_eq.
  - apply lookup_union_Some_l. rewrite lookup_insert_ne by done.
    by rewrite lookup_singleton_eq.
  - intros f Hf1 Hf2. rewrite lookup_union_r; [done|].
    rewrite lookup_insert_ne by done. by rewrite lookup_singleton_ne.
  - unfold GAE.get_review_by_id. simpl. rewrite lookup_insert_eq. simpl.
    erewrite dict_truthy_lookup; [done|].
    apply lookup_union_Some_l. by rewrite lookup_insert_eq.
Qed.

Lemma gae_update_review_effect_witness :
  ∃ new : obj,
    GAE.update_review 7 {[ "stars" := VInt 2 ]} Sample.gae_store
    = ((BObj (<["id" := VInt 7]> new), 200%Z),
       GAE.Store (GAE.businesses Sample.gae_store)
                 (<[7%Z := new]> (GAE.reviews Sample.gae_store))) ∧
    new !! "stars" = Some (VInt 2) ∧
    new !! "review_text" = Some VNull ∧
    new !! "user_id" = Some (VInt 5).
Proof.
  destruct (gae_update_review_effect 7%Z {[ "stars" := VInt 2 ]} Sample.review_data
              Sample.gae_store (VInt 2)) as (new & Hu & Hs & Ht & Hf & _);
    [by vm_compute..|].
  exists new. split; [done|]. split; [done|]. split; [done|]. by rewrite Hf.
Defined.

(** X6: PUT /businesses/{id} on a stored business with the five fields the
    handler asks for answers 200; the record becomes the body laid over the
    stored record, so fields the body lacks (such as "state") keep their
    value; the reviews stay as they are, and GET /businesses/{id} then
    answers with the same record. *)
Theorem gae_edit_business_merge business_id (data old : obj) s :
  GAE.businesses s !! business_id = Some old → old ≠ ∅ →
  Forall (λ f, is_Some (data !! f))
    ["owner_id"; "name"; "street_address"; "city"; "zip_code"] →
  ∃ new : obj,
    GAE.edit_business business_id data s
    = ((BObj (<["id" := VInt business_id]> new), 200%Z),
       GAE.Store (<[business_id := new]> (GAE.businesses s)) (GAE.reviews s)) ∧
    (∀ f v, data !! f = Some v → new !! f = Some v) ∧
    (∀ f, data !! f = None → new !! f = old !! f) ∧
    GAE.get_business_by_id business_id (GAE.edit_business business_id data s).2
    = (BObj (<["id" := VInt business_id]> new), 200%Z).
Proof.
  intros Hold Hne Hfields. exists (data ∪ old).
  pose proof Hfields as Hval. apply missing_nil in Hval.
  inversion_clear Hfields as [|? ? [o Ho] _].
  unfold GAE.edit_business, GAE.validate_fields. rewrite Hval. simpl. rewrite Hold. simpl.
  rewrite (proj2 (dict_truthy_true old) Hne). simpl.
  split; [done|]. split; [|split].
  - intros f v Hf. by apply lookup_union_Some_l.
  - intros f Hf. by apply lookup_union_r.
  - unfold GAE.get_business_by_id. simpl. rewrite lookup_insert_eq. simpl.
    erewrite dict_truthy_lookup; [done|]. by apply lookup_union_Some_l.
Qed.

Lemma gae_edit_business_merge_witness :
  ∃ new : obj,
    GAE.edit_business 1 Sample.stateless_data Sample.gae_store
    = ((BObj (<["id" := VInt 1]> new), 200%Z),
       GAE.Store (<[1%Z := new]> (GAE.businesses Sample.gae_store))
                 (GAE.reviews Sample.gae_store)) ∧
    new !! "name" = Some (VStr "B") ∧
    new !! "state" = Some (VStr "WA").
Proof.
  destruct (gae_edit_business_merge 1%Z Sample.stateless_data Sample.business_data
              Sample.gae_store) as (new & He & Hd & Ho & _).
  - by vm_compute.
  - by vm_compute.
  - repeat constructor; by eexists.
  - exists new. split; [done|]. split; [by apply Hd|]. by rewrite Ho.
Defined.

(** X7: DELETE /reviews/{id} on a stored review answers 204 and removes
    that review only; GET and DELETE of the same id then answer 404, and
    every other review and every business reads as before. *)
Theorem gae_delete_review_effect review_id (old : obj) s :
  GAE.reviews s !! review_id = Some old → old ≠ ∅ →
  let s' := (GAE.delete_review review_id s).2 in
  (GAE.delete_review review_id s).1 = (BEmpty, 204%Z) ∧
  GAE.get_review_by_id review_id s' = GAE.review_not_found "review" ∧
  GAE.delete_review review_id s' = (GAE.review_not_found "review", s') ∧
  status (GAE.review_not_found "review") = 404%Z ∧
  (∀ k, k ≠ review_id → GAE.get_review_by_id k s' = GAE.get_review_by_id k s) ∧
  (∀ k, GAE.get_business_by_id k s' = GAE.get_business_by_id k s).
Proof.
  intros Hold Hne. unfold GAE.delete_review. simpl. rewrite Hold. simpl.
  rewrite (proj2 (dict_truthy_true old) Hne). simpl.
  rewrite lookup_delete_eq. simpl.
  split; [done|]. split.
  { unfold GAE.get_review_by_id. simpl. by rewrite lookup_delete_eq. }
  split; [done|]. split; [done|]. split; [|done].
  intros k Hk. unfold GAE.get_review_by_id. simpl. by rewrite lookup_delete_ne.
Qed.

Lemma gae_delete_review_effect_witness :
  let s' := (GAE.delete_review 7 Sample.gae_store).2 in
  (GAE.delete_review 7 Sample.gae_store).1 = (BEmpty, 204%Z) ∧
  GAE.get_review_by_id 7 s' = GAE.review_not_found "review".
Proof.
  intros s'.
  destruct (gae_delete_review_effect 7%Z Sample.review_data Sample.gae_store)
    as (Hd & Hg & _); [by vm_compute..|]. by split.
Defined.


(** X9: when DELETE /businesses/{id} answers 204, the store loses that
    business and the reviews whose "business_id" is that integer, and
    nothing else. *)
Theorem gae_delete_business_precise business_id s :
  status (GAE.delete_business_by_id business_id s).1 = 204%Z →
  let s' := (GAE.delete_business_by_id business_id s).2 in
  GAE.businesses s' = delete business_id (GAE.businesses s) ∧
  (∀ k (r : obj),
     GAE.reviews s' !! k = Some r ↔
     GAE.reviews s !! k = Some r ∧ r !! "business_id" ≠ Some (VInt business_id)).
Proof.
  unfold GAE.delete_business_by_id. destruct (negb _); [done|]. intros _. simpl.
  split; [done|]. intros k r. rewrite lookup_delete_fetch.
  split; intros [Hk Hno]; (split; [done|]); intros Hm; apply Hno.
  - by apply matches_one.
  - by apply matches_one in Hm.
Qed.

Lemma gae_delete_business_precise_witness :
  let s' := (GAE.delete_business_by_id 1 Sample.gae_store).2 in
  GAE.businesses s' = delete 1%Z (GAE.businesses Sample.gae_store) ∧
  (∀ k (r : obj),
     GAE.reviews s' !! k = Some r ↔
     GAE.reviews Sample.gae_store !! k = Some r ∧
     r !! "business_id" ≠ Some (VInt 1)).
Proof.
  apply (gae_delete_business_precise 1%Z Sample.gae_store). by vm_compute.
Defined.

End gae_further.

(** ** Assignment 3 *)

Section mysql_further.
Import Py.

Lemma sample_drv_coherent : MySQL.coherent Sample.drv.
Proof. intros v n Hv. exact Hv. Qed.

Lemma sample_db_reachable : MySQL.reachable Sample.drv Sample.ctx Sample.db.
Proof. by exists Sample.mysql_requests. Qed.

(** X10: with a driver that stores the integer it compares with, every
    database the MySQL service reaches from the empty tables has unique
    business ids and review ids, has only reviews of stored businesses, has
    at most one review per user and business, and keeps both AUTO_INCREMENT
    counters above every stored id. *)
Theorem mysql_reachable_invariant drv ctx d :
  MySQL.coherent drv → MySQL.reachable drv ctx d →
  MySQL.db_ok d ∧ MySQL.counters_ok d ∧
  (∀ r1 r2, r1 ∈ MySQL.review d → r2 ∈ MySQL.review d →
            MySQL.r_user_id r1 = MySQL.r_user_id r2 →
            MySQL.r_business_id r1 = MySQL.r_business_id r2 → r1 = r2).
Proof.
  intros Hdrv [qs <-].
  pose proof (mysql_run_inv drv ctx Hdrv qs MySQL.empty_db mysql_empty_db_inv)
    as [Hok Hcnt].
  split; [done|]. split; [done|].
  intros r1 r2 H1 H2 Hu Hb. destruct Hok as (_ & _ & _ & Hpair).
  assert (filter (λ y, (MySQL.r_user_id y, MySQL.r_business_id y)
                       = (MySQL.r_user_id r1, MySQL.r_business_id r1))
                 (MySQL.review (MySQL.run drv ctx qs MySQL.empty_db)) = [r1]) as Hone.
  { by apply filter_unique. }
  assert (r2 ∈ [r1]) as Hin.
  { rewrite <- Hone. apply list_elem_of_filter. split; [|done]. by rewrite Hu, Hb. }
  by apply list_elem_of_singleton in Hin.
Qed.

Lemma mysql_reachable_invariant_witness :
  MySQL.db_ok Sample.db ∧ MySQL.counters_ok Sample.db.
Proof.
  destruct (mysql_reachable_invariant Sample.drv Sample.ctx Sample.db
              sample_drv_coherent sample_db_reachable) as (Hok & Hcnt & _).
  by split.
Defined.

(** X11: a request the MySQL service answers with an error status changes
    nothing in the database. *)
Theorem mysql_error_leaves_db drv ctx q d :
  (400 ≤ status (MySQL.handle drv ctx q d).1)%Z → (MySQL.handle drv ctx q d).2 = d.
Proof.
  destruct q as [content|business_id content|business_id|content
                 |review_id content|review_id]; simpl.
  - unfold MySQL.create_businesses. destruct (missing _ _); [|done].
    destruct (MySQL.business_params _ _ _); [|done].
    destruct (MySQL.business_echo _ _ _ _); [|done]. unfold status. simpl. lia.
  - unfold MySQL.edit_business. destruct (missing _ _); [|done].
    destruct (MySQL.one_or_none _) as [[?|]|]; [|done..].
    destruct (MySQL.business_params _ _ _); [|done].
    destruct (MySQL.business_echo _ _ _ _); [|done]. unfold status. simpl. lia.
  - unfold MySQL.delete_business.
    destruct (MySQL.one_or_none _) as [[?|]|]; [|done..]. unfold status. simpl. lia.
  - unfold MySQL.create_review. destruct (missing _ _); [|done].
    destruct (MySQL.one_or_none _) as [[?|]|]; [|done..].
    destruct (MySQL.one_or_none _) as [[?|]|]; [done| |done].
    destruct (MySQL.review_params _ _ _ _); [|done]. unfold status. simpl. lia.
  - unfold MySQL.update_review. destruct (content !! "stars"); [|done].
    destruct (MySQL.one_or_none _) as [[?|]|]; [|done..].
    destruct (MySQL.review_update _ _ _); [|done]. unfold status. simpl. lia.
  - unfold MySQL.delete_review.
    destruct (MySQL.one_or_none _) as [[?|]|]; [|done..]. unfold status. simpl. lia.
Qed.

Lemma mysql_error_leaves_db_witness :
  (MySQL.handle Sample.drv Sample.ctx (MySQL.PostReview Sample.review_data)
     Sample.db).2 = Sample.db.
Proof.
  apply (mysql_error_leaves_db Sample.drv Sample.ctx
           (MySQL.PostReview Sample.review_data) Sample.db).
  by vm_compute.
Defined.

(** X12: for a non-negative limit and offset and numeric zip codes, GET
    /businesses answers 200 with min(limit, total - offset) entries, and
    [next] is null exactly when fewer than [limit] businesses are left from
    the offset; when exactly [limit] are left, [next] is set and names the
    offset just past the last business. *)
Theorem mysql_list_businesses_next drv ctx offset limit d :
  (0 ≤ limit)%Z → (0 ≤ offset)%Z →
  (∀ b, b ∈ MySQL.businesses d →
        is_Some (MySQL.py_int drv (VStr (MySQL.b_zip_code b)))) →
  let total := Z.of_nat (length (MySQL.businesses d)) in
  ∃ entries next,
    MySQL.list_businesses drv ctx offset limit d = (BPage entries next, 200%Z) ∧
    Z.of_nat (length entries) = Z.min limit (Z.max 0 (total - offset)) ∧
    (next = None ↔ (Z.max 0 (total - offset) < limit)%Z) ∧
    (next ≠ None →
     next = Some (MySQL.base_url ctx +:+ "?offset=" +:+ pretty (offset + limit)%Z
                  +:+ "&limit=" +:+ pretty limit)).
Proof.
  intros Hl Ho Hzip total.
  destruct (mysql_list_businesses_total drv ctx offset limit d Hl Ho Hzip)
    as (entries & next & Hlist & Hlen).
  exists entries, next. split; [done|].
  rewrite length_take, length_drop in Hlen.
  split; [unfold total; lia|].
  unfold MySQL.list_businesses, MySQL.select_page in Hlist.
  rewrite decide_True in Hlist by done.
  destruct (mapM _ _) as [business_list|] eqn:Hmap; [|done].
  apply length_mapM in Hmap.
  rewrite length_take, length_drop, order_by_id_length in Hmap.
  injection Hlist as -> <-.
  rewrite length_take, length_drop, order_by_id_length.
  split; [|by case_decide].
  case_decide as Hd; unfold total; split; intros; try done; lia.
Qed.

Lemma mysql_list_businesses_next_witness :
  ∃ entries next,
    MySQL.list_businesses Sample.drv Sample.ctx 0 1 Sample.db
    = (BPage entries next, 200%Z) ∧
    Z.of_nat (length entries) = 1%Z ∧
    next ≠ None.
Proof.
  destruct (mysql_list_businesses_next Sample.drv Sample.ctx 0%Z 1%Z Sample.db)
    as (entries & next & Hl & Hn & Hnone & _); [done..| |].
  - intros b ->%list_elem_of_singleton. vm_compute. by eexists.
  - exists entries, next. split; [done|]. split; [done|].
    intros Hnext. apply Hnone in Hnext. by vm_compute in Hnext.
Defined.

#[local] Instance id_le_total : Total MySQL.id_le.
Proof. intros a b. unfold MySQL.id_le. lia. Qed.

(** X13: the page GET /businesses answers with follows ascending id order:
    its i-th entry is the business at position offset + i of the table
    sorted by id, with that business's id and a "self" link ending in that
    id. *)
Theorem mysql_list_businesses_order drv ctx offset limit d entries next i (o : obj) :
  MySQL.list_businesses drv ctx offset limit d = (BPage entries next, 200%Z) →
  entries !! i = Some o →
  Sorted MySQL.id_le (MySQL.order_by_id (MySQL.businesses d)) ∧
  MySQL.order_by_id (MySQL.businesses d) ≡ₚ MySQL.businesses d ∧
  ∃ b, MySQL.order_by_id (MySQL.businesses d) !! (Z.to_nat offset + i) = Some b ∧
       o !! "id" = Some (VInt (MySQL.b_id b)) ∧
       o !! "owner_id" = Some (VInt (MySQL.b_owner_id b)) ∧
       o !! "name" = Some (VStr (MySQL.b_name b)) ∧
       o !! "self" = Some (VStr (MySQL.base_url ctx +:+ "/" +:+ pretty (MySQL.b_id b))).
Proof.
  intros Hlist Hi.
  split; [apply Sorted_merge_sort; apply _|].
  split; [apply merge_sort_Permutation|].
  unfold MySQL.list_businesses, MySQL.select_page in Hlist.
  destruct (decide _) as [[Hl Ho]|]; [|done].
  destruct (mapM _ _) as [business_list|] eqn:Hmap; [|done].
  injection Hlist as -> _.
  apply mapM_Some in Hmap.
  destruct (Forall2_lookup_r _ _ _ _ _ Hmap Hi) as (b & Hb & Hjson).
  apply lookup_take_Some in Hb as [Hb _]. rewrite lookup_drop in Hb.
  exists b. split; [done|].
  unfold MySQL.business_json in Hjson.
  destruct (MySQL.py_int drv _) as [zip|]; [|done]. simpl in Hjson.
  injection Hjson as <-. done.
Qed.

Lemma mysql_list_businesses_order_witness :
  ∃ (o : obj) b,
    MySQL.order_by_id (MySQL.businesses Sample.db) !! 0 = Some b ∧
    o !! "id" = Some (VInt (MySQL.b_id b)) ∧
    o !! "self" = Some (VStr (MySQL.base_url Sample.ctx +:+ "/" +:+ pretty (MySQL.b_id b))).
Proof.
  assert (∃ o entries next,
            MySQL.list_businesses Sample.drv Sample.ctx 0 3 Sample.db
            = (BPage (o :: entries) next, 200%Z)) as (o & entries & next & Hl).
  { vm_compute. by eexists _, _, _. }
  destruct (mysql_list_businesses_order Sample.drv Sample.ctx 0%Z 3%Z Sample.db
              (o :: entries) next 0 o Hl eq_refl)
    as (_ & _ & b & Hb & Hid & _ & _ & Hself).
  by exists o, b.
Defined.

(** X14: with a driver that stores the integer it compares with, when POST
    /reviews answers 201 on a well-formed database, the same POST again
    answers 409 and changes nothing. *)
Theorem mysql_create_review_then_again drv ctx (content : obj) d :
  MySQL.coherent drv → MySQL.db_inv d →
  status (MySQL.create_review drv ctx content d).1 = 201%Z →
  let d1 := (MySQL.create_review drv ctx content d).2 in
  MySQL.create_review drv ctx content d1
  = ((BError MySQL.already_reviewed, 409%Z), d1).
Proof.
  intros Hdrv Hinv Hst d1.
  pose proof (mysql_create_review_inv drv ctx Hdrv content d Hinv) as [Hok1 _].
  fold d1 in Hok1. revert Hst. unfold d1 in *. clear d1.
  unfold MySQL.create_review in *.
  destruct (missing content _) eqn:Hmiss; [|done].
  destruct (MySQL.one_or_none _) as [[business_exists|]|]; [|done..].
  destruct (MySQL.one_or_none (MySQL.select_review_pair _ _ _ _)) as [[?|]|];
    [done| |done].
  destruct (MySQL.review_params _ _ _ _) as [row|] eqn:Hrow; [|done].
  intros _. simpl in *.
  unfold MySQL.review_params in Hrow.
  destruct (MySQL.bind_int drv (dict_get content "user_id")) as [u|] eqn:Hu; [|done].
  destruct (MySQL.bind_int drv (dict_get content "business_id")) as [b|] eqn:Hb;
    [|done].
  simpl in Hrow.
  destruct (MySQL.bind_int drv (dict_get content "stars")) as [stars|]; [|done].
  simpl in Hrow. destruct (MySQL.bind_text drv _) as [text|]; [|done].
  simpl in Hrow. case_guard; [|done]. simpl in Hrow. injection Hrow as <-.
  set (d1 := MySQL.Db _ _ _ _) in *.
  pose proof (mysql_create_review_duplicate drv ctx content d1
                (MySQL.ReviewRow (MySQL.next_review_id d) u b stars text) Hok1)
    as Hdup.
  unfold MySQL.create_review in Hdup. rewrite Hmiss in Hdup. apply Hdup.
  - by apply missing_nil.
  - unfold d1. simpl. apply elem_of_app. right. left.
  - simpl. by apply Hdrv.
  - simpl. by apply Hdrv.
Qed.

Lemma mysql_create_review_then_again_witness :
  let d0 := MySQL.run Sample.drv Sample.ctx [MySQL.PostBusiness Sample.business_data]
              MySQL.empty_db in
  let d1 := (MySQL.create_review Sample.drv Sample.ctx Sample.review_data d0).2 in
  MySQL.create_review Sample.drv Sample.ctx Sample.review_data d1
  = ((BError MySQL.already_reviewed, 409%Z), d1).
Proof.
  intros d0.
  apply (mysql_create_review_then_again Sample.drv Sample.ctx Sample.review_data d0
           sample_drv_coherent).
  - apply (mysql_run_inv Sample.drv Sample.ctx sample_drv_coherent).
    apply mysql_empty_db_inv.
  - by vm_compute.
Defined.




(** X16: when DELETE /reviews/{id} answers 204, the table loses the reviews
    with that id and nothing else; GET and DELETE of that id then answer
    404, and the businesses stay as they are. *)
Theorem mysql_delete_review_effect ctx review_id d :
  status (MySQL.delete_review review_id d).1 = 204%Z →
  let d' := (MySQL.delete_review review_id d).2 in
  MySQL.get_review ctx review_id d' = (BError MySQL.no_review, 404%Z) ∧
  MySQL.delete_review review_id d' = ((BError MySQL.no_review, 404%Z), d') ∧
  MySQL.businesses d' = MySQL.businesses d ∧
  (∀ x, x ∈ MySQL.review d' ↔ x ∈ MySQL.review d ∧ MySQL.r_id x ≠ review_id).
Proof.
  intros Hst d'.
  assert (d' = MySQL.Db (MySQL.businesses d)
                 (filter (λ x, MySQL.r_id x ≠ review_id) (MySQL.review d))
                 (MySQL.next_business_id d) (MySQL.next_review_id d)) as Hd'.
  { unfold d', MySQL.delete_review in *.
    by destruct (MySQL.one_or_none _) as [[old|]|]. }
  clearbody d'.
  assert (MySQL.select_review review_id d' = []) as Hnone.
  { unfold MySQL.select_review. rewrite Hd'. simpl. apply filter_none.
    by intros x [Hx _]%list_elem_of_filter. }
  split; [|split; [|split]].
  - unfold MySQL.get_review. by rewrite Hnone.
  - unfold MySQL.delete_review. by rewrite Hnone.
  - by rewrite Hd'.
  - intros x. rewrite Hd'. simpl. rewrite list_elem_of_filter. tauto.
Qed.

Lemma mysql_delete_review_effect_witness :
  let d' := (MySQL.delete_review 1 Sample.db).2 in
  MySQL.get_review Sample.ctx 1 d' = (BError MySQL.no_review, 404%Z) ∧
  MySQL.businesses d' = MySQL.businesses Sample.db.
Proof.
  intros d'.
  destruct (mysql_delete_review_effect Sample.ctx 1%Z Sample.db)
    as (Hg & _ & Hb & _); [by vm_compute|]. by split.
Defined.

(** X17: when POST /businesses answers 201 on a database whose counter is
    above every stored id, the answer carries the counter's value as "id"
    and a "self" link ending in it; exactly one row, with that id, is
    appended, the counter advances by one, the reviews stay as they are, and
    GET /businesses/{id} for the new id does not answer 404. *)
Theorem mysql_create_businesses_effect drv ctx (content : obj) d :
  MySQL.counters_ok d →
  status (MySQL.create_businesses drv ctx content d).1 = 201%Z →
  let id := MySQL.next_business_id d in
  let d' := (MySQL.create_businesses drv ctx content d).2 in
  ∃ row (o : obj),
    (MySQL.create_businesses drv ctx content d).1 = (BObj o, 201%Z) ∧
    o !! "id" = Some (VInt id) ∧
    o !! "name" = Some (dict_get content "name") ∧
    o !! "self" = Some (VStr (MySQL.base_url ctx +:+ "/" +:+ pretty id)) ∧
    MySQL.b_id row = id ∧
    d' = MySQL.Db (MySQL.businesses d ++ [row]) (MySQL.review d)
                  (id + 1) (MySQL.next_review_id d) ∧
    MySQL.select_business id d' = [row] ∧
    status (MySQL.get_business drv ctx id d') ≠ 404%Z.
Proof.
  intros [Hcb _]. unfold MySQL.create_businesses.
  destruct (missing _ _); [|done].
  destruct (MySQL.business_params _ _ _) as [row|] eqn:Hrow; [|done].
  destruct (MySQL.business_echo _ _ _ _) as [o|] eqn:Ho; [|done].
  intros _. simpl. exists row, o.
  assert (MySQL.b_id row = MySQL.next_business_id d) as Hid.
  { unfold MySQL.business_params in Hrow. by simplify_option_eq. }
  unfold MySQL.business_echo in Ho.
  destruct (MySQL.py_int drv _) as [zip|]; [|done]. simpl in Ho.
  injection Ho as <-.
  split; [done|]. repeat (split; [done|]).
  assert (MySQL.select_business (MySQL.next_business_id d)
            (MySQL.Db (MySQL.businesses d ++ [row]) (MySQL.review d)
               (MySQL.next_business_id d + 1) (MySQL.next_review_id d)) = [row])
    as Hsel.
  { unfold MySQL.select_business. simpl. rewrite filter_app, filter_none.
    - rewrite filter_cons, decide_True by done. done.
    - intros b Hb Heq. specialize (Hcb b Hb). lia. }
  split; [done|]. unfold MySQL.get_business. rewrite Hsel. simpl.
  by destruct (MySQL.business_json _ _ _).
Qed.

Lemma mysql_create_businesses_effect_witness :
  ∃ row (o : obj),
    (MySQL.create_businesses Sample.drv Sample.ctx Sample.business_data Sample.db).1
    = (BObj o, 201%Z) ∧
    o !! "id" = Some (VInt 2) ∧
    MySQL.b_id row = 2%Z.
Proof.
  destruct (mysql_create_businesses_effect Sample.drv Sample.ctx Sample.business_data
              Sample.db) as (row & o & Hr & Hid & _ & _ & Hrow & _).
  - apply (mysql_run_inv Sample.drv Sample.ctx sample_drv_coherent
             Sample.mysql_requests MySQL.empty_db mysql_empty_db_inv).
  - by vm_compute.
  - by exists row, o.
Defined.

(** X18: PUT /businesses/{id} never changes the reviews, the counters or
    the ids of the stored businesses, and leaves every business with another
    id as it is; with a complete body and no stored business of that id it
    answers 404; when it answers 200, every row with that id holds the
    values the driver stored for the body's fields. *)
Theorem mysql_edit_business_effect drv ctx business_id (content : obj) d :
  let d' := (MySQL.edit_business drv ctx business_id content d).2 in
  MySQL.review d' = MySQL.review d ∧
  MySQL.next_business_id d' = MySQL.next_business_id d ∧
  MySQL.next_review_id d' = MySQL.next_review_id d ∧
  MySQL.b_id <$> MySQL.businesses d' = MySQL.b_id <$> MySQL.businesses d ∧
  (∀ b, b ∈ MySQL.businesses d → MySQL.b_id b ≠ business_id →
        b ∈ MySQL.businesses d') ∧
  (missing content MySQL.business_fields = [] →
   MySQL.select_business business_id d = [] →
   MySQL.edit_business drv ctx business_id content d
   = ((BError MySQL.no_business, 404%Z), d)) ∧
  (status (MySQL.edit_business drv ctx business_id content d).1 = 200%Z →
   ∃ row,
     MySQL.business_params drv business_id content = Some row ∧
     MySQL.bind_int drv (dict_get content "owner_id") = Some (MySQL.b_owner_id row) ∧
     MySQL.bind_str drv 50 (dict_get content "name") = Some (MySQL.b_name row) ∧
     ∀ b, b ∈ MySQL.businesses d' → MySQL.b_id b = business_id → b = row).
Proof.
  intros d'. unfold d'. clear d'.
  unfold MySQL.edit_business.
  destruct (missing content MySQL.business_fields) eqn:Hmiss; [|by repeat split].
  destruct (MySQL.one_or_none _) as [[existing|]|] eqn:Hsel; simpl.
  - destruct (MySQL.business_params _ _ _) as [row|] eqn:Hrow;
      [|repeat split; try done; by intros _ Hnone; rewrite Hnone in Hsel].
    destruct (MySQL.business_echo _ _ _ _);
      [|repeat split; try done; by intros _ Hnone; rewrite Hnone in Hsel].
    simpl.
    assert (MySQL.b_id row = business_id) as Hid.
    { unfold MySQL.business_params in Hrow. by simplify_option_eq. }
    repeat (split; [done|]). split; [|split; [|split]].
    + apply fmap_replace. intros x _ Hx. congruence.
    + intros b Hb Hne. apply list_elem_of_fmap. exists b. split; [|done].
      by rewrite decide_False.
    + intros _ Hnone. by rewrite Hnone in Hsel.
    + intros _. exists row. split; [done|].
      assert (∀ b, b ∈ (λ b, if decide (MySQL.b_id b = business_id) then row else b)
                         <$> MySQL.businesses d →
                   MySQL.b_id b = business_id → b = row) as Hrows.
      { intros b [x [-> Hx]]%list_elem_of_fmap. by case_decide. }
      split; [|split; [|done]].
      * unfold MySQL.business_params in Hrow. simplify_option_eq.
        by rewrite <- Hrow.
      * unfold MySQL.business_params in Hrow. simplify_option_eq.
        by rewrite <- Hrow.
  - by repeat split.
  - repeat split; try done. by intros _ Hnone; rewrite Hnone in Hsel.
Qed.

Lemma mysql_edit_business_effect_witness :
  MySQL.edit_business Sample.drv Sample.ctx 9 Sample.business_data Sample.db
  = ((BError MySQL.no_business, 404%Z), Sample.db).
Proof.
  by apply (mysql_edit_business_effect Sample.drv Sample.ctx 9%Z
              Sample.business_data Sample.db).
Defined.

End mysql_further.

(** ** Assignment 4 *)

Section oauth_further.
Import Py Datastore.

(** X19: a state issued by GET / under a fresh key, and carried by no other
    stored token, is accepted by the next callback that presents it, and the
    stored tokens are then exactly what they were before it was issued. *)
Theorem oauth_issue_then_callback idp new_id code st (m : gmap Z obj) :
  m !! new_id = None → OAuth.issued st m = 0 → st ≠ "" →
  let m1 := (OAuth.welcome idp new_id st m).2 in
  OAuth.verify_state st m1 = (true, m) ∧
  (OAuth.oauth_callback idp code (Some st) m1).2 = m ∧
  (OAuth.oauth_callback idp code (Some st) m1).1 ≠ OAuth.state_failed.
Proof.
  intros Hfresh Hzero Hne m1.
  assert (m1 = OAuth.store_state new_id st m) as Hm1 by done.
  clearbody m1.
  assert (OAuth.issued st m1 ≠ 0) as Hissued.
  { by rewrite Hm1, oauth_issued_store_state. }
  assert (∀ k (e : obj), m1 !! k = Some e → e !! "state" = Some (VStr st) →
                         k = new_id) as Honly.
  { intros k e Hk He. destruct (decide (k = new_id)) as [|Hkne]; [done|]. exfalso.
    rewrite Hm1 in Hk. unfold OAuth.store_state, put in Hk.
    rewrite lookup_insert_ne in Hk by done.
    by apply (proj1 (oauth_issued_zero st m) Hzero k e). }
  assert (delete new_id m1 = m) as Hdel.
  { rewrite Hm1. unfold OAuth.store_state, put.
    rewrite delete_insert_eq. by apply delete_id. }
  destruct (oauth_callback_consumed idp code st m1 Hne Hissued)
    as (k & e & Hk & He & Hm & Hr & _).
  rewrite (Honly k e Hk He), Hdel in Hm. split; [|by split].
  destruct (oauth_verify_state_consume st m1 Hissued) as (k' & e' & Hk' & He' & ->).
  by rewrite (Honly k' e' Hk' He'), Hdel.
Qed.

Lemma oauth_issue_then_callback_witness :
  let m1 := (OAuth.welcome Sample.idp 1 "abc" ∅).2 in
  OAuth.verify_state "abc" m1 = (true, ∅) ∧
  (OAuth.oauth_callback Sample.idp (Some "c") (Some "abc") m1).2 = ∅.
Proof.
  intros m1.
  destruct (oauth_issue_then_callback Sample.idp 1%Z (Some "c") "abc" ∅)
    as (Hv & Hm & _); [done..|]. by split.
Defined.

(** X20: when the state is accepted but the token exchange yields no access
    token, the callback answers 400 "Failed to retrieve access token" and
    the stored token is consumed all the same. *)
Theorem oauth_failed_exchange_consumes idp code st (m : gmap Z obj) :
  st ≠ "" → OAuth.issued st m ≠ 0 →
  OAuth.exchange idp code = None ∨ OAuth.exchange idp code = Some "" →
  ∃ k (e : obj),
    m !! k = Some e ∧ e !! "state" = Some (VStr st) ∧
    OAuth.oauth_callback idp code (Some st) m
    = ((BText "Failed to retrieve access token", 400%Z), delete k m) ∧
    S (OAuth.issued st (delete k m)) = OAuth.issued st m.
Proof.
  intros Hne Hissued Hex.
  destruct (oauth_verify_state_consume st m Hissued) as (k & e & Hk & He & Hv).
  exists k, e. split; [done|]. split; [done|].
  split; [|by eapply oauth_issued_delete].
  unfold OAuth.oauth_callback. destruct st as [|c st]; [done|]. rewrite Hv. simpl.
  by destruct Hex as [-> | ->].
Qed.

Lemma oauth_failed_exchange_consumes_witness :
  ∃ k (e : obj),
    Sample.tokens !! k = Some e ∧
    OAuth.oauth_callback
      (OAuth.Provider (λ _, None) (λ _, ("", "")) (λ _ _ _, "") (λ url, url))
      None (Some "abc") Sample.tokens
    = ((BText "Failed to retrieve access token", 400%Z), delete k Sample.tokens).
Proof.
  destruct (oauth_failed_exchange_consumes
              (OAuth.Provider (λ _, None) (λ _, ("", "")) (λ _ _ _, "") (λ url, url))
              None "abc" Sample.tokens) as (k & e & Hk & _ & Hc & _);
    [done | by vm_compute | by left |].
  by exists k, e.
Defined.

Lemma oauth_issued_insert_other st st' new_id (m : gmap Z obj) :
  m !! new_id = None → st' ≠ st →
  OAuth.issued st' (OAuth.store_state new_id st m) = OAuth.issued st' m.
Proof.
  intros Hk Hne. unfold OAuth.issued, fetch, OAuth.store_state, put.
  rewrite (map_to_list_insert m new_id _ Hk), filter_cons.
  rewrite decide_False; [done|]. intros Hm%matches_one. simpl in Hm.
  rewrite lookup_singleton_eq in Hm. congruence.
Qed.

(** X21: GET / under a fresh key answers 200 and stores one more token
    carrying the new state; the number of stored tokens carrying any other
    state is unchanged. *)
Theorem oauth_welcome_effect idp new_id st (m : gmap Z obj) :
  m !! new_id = None →
  let m1 := (OAuth.welcome idp new_id st m).2 in
  status (OAuth.welcome idp new_id st m).1 = 200%Z ∧
  m1 !! new_id = Some {[ "state" := VStr st ]} ∧
  (∀ k, k ≠ new_id → m1 !! k = m !! k) ∧
  OAuth.issued st m1 = S (OAuth.issued st m) ∧
  (∀ st', st' ≠ st → OAuth.issued st' m1 = OAuth.issued st' m).
Proof.
  intros Hfresh m1. split; [done|]. split; [apply lookup_insert_eq|]. split.
  - intros k Hk. by apply lookup_insert_ne.
  - split; [by apply oauth_issued_store_state|].
    intros st' Hne. by apply oauth_issued_insert_other.
Qed.

Lemma oauth_welcome_effect_witness :
  let m1 := (OAuth.welcome Sample.idp 2 "xyz" Sample.tokens).2 in
  OAuth.issued "xyz" m1 = 1 ∧ OAuth.issued "abc" m1 = 1.
Proof.
  intros m1.
  destruct (oauth_welcome_effect Sample.idp 2%Z "xyz" Sample.tokens)
    as (_ & _ & _ & Hn & Ho); [done|].
  unfold m1. split; [rewrite Hn; by vm_compute|]. rewrite Ho; by vm_compute.
Defined.

(** X22: a callback never changes how many stored tokens carry a state
    other than the one it presents. *)
Theorem oauth_callback_isolated idp code state st' (m : gmap Z obj) :
  state ≠ Some st' →
  OAuth.issued st' (OAuth.oauth_callback idp code state m).2 = OAuth.issued st' m.
Proof.
  intros Hne.
  destruct (oauth_callback_store idp code state m)
    as [->|(st & k & e & -> & Hk & He & ->)]; [done|].
  apply (oauth_issued_delete_other st' m k e Hk). rewrite He. congruence.
Qed.

Lemma oauth_callback_isolated_witness :
  OAuth.issued "xyz"
    (OAuth.oauth_callback Sample.idp (Some "c") (Some "abc") Sample.tokens).2
  = OAuth.issued "xyz" Sample.tokens.
Proof.
  by apply (oauth_callback_isolated Sample.idp (Some "c") (Some "abc") "xyz"
              Sample.tokens).
Defined.

End oauth_further.

(** ** Assignment 5 *)

Section jwt_further.
Import Py Datastore.

Lemma jwt_find_rsa_key keys (header acc rsa_key : obj) :
  JWT.find_rsa_key keys header acc = Some rsa_key →
  rsa_key = acc ∨
  ∃ (key : obj) kid kty use n e,
    key ∈ keys ∧ key !! "kid" = Some kid ∧ header !! "kid" = Some kid ∧
    key !! "kty" = Some kty ∧ key !! "use" = Some use ∧
    key !! "n" = Some n ∧ key !! "e" = Some e ∧
    rsa_key = list_to_map [("kty", kty); ("kid", kid); ("use", use); ("n", n); ("e", e)].
Proof.
  revert acc. induction keys as [|key keys IH]; intros acc; simpl.
  - intros [= ->]. by left.
  - destruct (key !! "kid") as [kid|] eqn:Hkid; [|done]. simpl.
    destruct (header !! "kid") as [hkid|] eqn:Hhkid; [|done]. simpl.
    destruct (decide (kid = hkid)) as [->|Hne].
    + destruct (key !! "kty") as [kty|] eqn:Hkty; [|done]. simpl.
      destruct (key !! "use") as [use|] eqn:Huse; [|done]. simpl.
      destruct (key !! "n") as [n|] eqn:Hn; [|done]. simpl.
      destruct (key !! "e") as [e|] eqn:He; [|done]. simpl.
      intros Hfind. destruct (IH _ Hfind) as [->|(key' & ? & ? & ? & ? & ? & Hin & Hrest)].
      * right. exists key, hkid, kty, use, n, e. repeat (split; [done || left|]). done.
      * right. eexists key', _, _, _, _, _. split; [by right|exact Hrest].
    + intros Hfind. destruct (IH _ Hfind) as [->|(key' & ? & ? & ? & ? & ? & Hin & Hrest)].
      * by left.
      * right. eexists key', _, _, _, _, _. split; [by right|exact Hrest].
Qed.

(** X23: [verify_jwt] returns a payload only for the second word of the
    Authorization header, whatever the first word is, when the token's
    header names an algorithm other than HS256 and the kid of a published
    key, and [jwt.decode] accepts the token with that key's kty, kid, use, n
    and e. *)
Theorem jwt_verify_accepts lib req (payload : obj) :
  JWT.verify_jwt lib req = Some (Some payload) →
  ∃ words token (header key : obj) alg kid kty use n e,
    JWT.authorization req = Some words ∧ words !! 1%nat = Some token ∧
    JWT.get_unverified_header lib token = Some header ∧
    header !! "alg" = Some alg ∧ alg ≠ VStr "HS256" ∧
    key ∈ JWT.jwks_keys lib ∧
    key !! "kid" = Some kid ∧ header !! "kid" = Some kid ∧
    key !! "kty" = Some kty ∧ key !! "use" = Some use ∧
    key !! "n" = Some n ∧ key !! "e" = Some e ∧
    JWT.decode lib token
      (list_to_map [("kty", kty); ("kid", kid); ("use", use); ("n", n); ("e", e)])
    = Some payload.
Proof.
  unfold JWT.verify_jwt. destruct (JWT.authorization req) as [words|]; [|done].
  destruct (words !! 1%nat) as [token|] eqn:Htok; [|done]. simpl.
  destruct (JWT.get_unverified_header lib token) as [header|] eqn:Hhdr; [|done].
  destruct (header !! "alg") as [alg|] eqn:Halg; [|done]. simpl.
  case_decide as Hhs; [done|].
  destruct (JWT.find_rsa_key _ _ _) as [rsa_key|] eqn:Hfind; [|done]. simpl.
  destruct (dict_truthy rsa_key) eqn:Ht; [|done]. intros [= Hdec].
  destruct (jwt_find_rsa_key _ _ _ _ Hfind)
    as [->|(key & kid & kty & use & n & e & Hin & Hk & Hh & Hkty & Huse & Hn & He & ->)].
  { by vm_compute in Ht. }
  exists words, token, header, key, alg, kid, kty, use, n, e.
  by repeat (split; [done|]).
Qed.

Lemma jwt_verify_accepts_witness :
  ∃ (key : obj) kid,
    key ∈ JWT.jwks_keys Sample.lib ∧ key !! "kid" = Some kid.
Proof.
  destruct (jwt_verify_accepts Sample.lib Sample.bob_request {[ "sub" := VStr "bob" ]})
    as (words & token & header & key & alg & kid & kty & use & n & e
        & _ & _ & _ & _ & _ & Hin & Hkid & _); [by vm_compute|].
  by exists key, kid.
Defined.



(** X25: POST /businesses with a complete body and a verified token that
    has a sub answers 201 and stores the body with owner_id set to the sub,
    unless the body names an owner_id itself, which then wins; GET
    /businesses/{id} with the same token then answers 200 with the stored
    record when the stored owner_id is the sub, and 403 when the body named
    another owner. *)
Theorem jwt_post_then_get lib new_id (content payload : obj) sub req (m : gmap Z obj) :
  JWT.check_attributes content = true →
  JWT.verify_jwt lib req = Some (Some payload) →
  payload !! "sub" = Some sub →
  let stored : obj := content ∪ {[ "owner_id" := sub ]} in
  let link := JWT.url_root req +:+ "businesses/" +:+ pretty new_id in
  let m1 := (JWT.businesses_post lib new_id content req m).2 in
  JWT.businesses_post lib new_id content req m
  = ((BObj (<["self" := VStr link]>
              (content ∪ <["owner_id" := sub]> {[ "id" := VInt new_id ]})), 201%Z),
     <[new_id := stored]> m) ∧
  stored !! "owner_id" = Some (default sub (content !! "owner_id")) ∧
  (default sub (content !! "owner_id") = sub →
   JWT.get_business lib new_id req m1
   = (BObj (<["self" := VStr link]> (<["id" := VInt new_id]> stored)), 200%Z)) ∧
  (default sub (content !! "owner_id") ≠ sub →
   JWT.get_business lib new_id req m1 = JWT.no_business).
Proof.
  intros Hc Hv Hsub stored link m1.
  assert (JWT.businesses_post lib new_id content req m
          = ((BObj (<["self" := VStr link]>
                      (content ∪ <["owner_id" := sub]> {[ "id" := VInt new_id ]})),
              201%Z), <[new_id := stored]> m)) as Hpost.
  { unfold JWT.businesses_post. rewrite Hc, Hv. simpl.
    rewrite (dict_truthy_lookup _ _ _ Hsub). simpl.
    by rewrite (dict_get_Some _ _ _ Hsub). }
  assert (stored !! "owner_id" = Some (default sub (content !! "owner_id"))) as Howner.
  { unfold stored. destruct (content !! "owner_id") as [o|] eqn:Ho; simpl.
    - by apply lookup_union_Some_l.
    - rewrite lookup_union_r by done. apply lookup_singleton_eq. }
  split; [done|]. split; [done|].
  assert (m1 = <[new_id := stored]> m) as -> by (unfold m1; by rewrite Hpost).
  unfold JWT.get_business. rewrite Hv. simpl. rewrite lookup_insert_eq.
  rewrite (dict_truthy_lookup _ _ _ Howner). simpl. rewrite Hsub, Howner.
  split; intros Heq.
  - rewrite Heq. by rewrite decide_False by (by intros ?).
  - rewrite decide_True; [done|]. congruence.
Qed.

Lemma jwt_post_then_get_witness :
  let m1 := (JWT.businesses_post Sample.lib 2 Sample.jwt_content Sample.bob_request
               Sample.jwt_store).2 in
  ∃ o, JWT.get_business Sample.lib 2 Sample.bob_request m1 = (BObj o, 200%Z).
Proof.
  intros m1.
  destruct (jwt_post_then_get Sample.lib 2%Z Sample.jwt_content
              {[ "sub" := VStr "bob" ]} (VStr "bob") Sample.bob_request
              Sample.jwt_store) as (_ & _ & Hget & _); [by vm_compute..|].
  eexists. by apply Hget.
Defined.

(** X26: DELETE /businesses/{id} under the JWT variant, with a verified
    token that has a sub, removes a stored business only for its owner: the
    owner is answered 204 and GET by the same token then answers 403; any
    other subject is answered 403 and the store stays as it was. *)
Theorem jwt_delete_business_effect
    lib id req (m : gmap Z obj) (payload business : obj) sub owner_id :
  JWT.verify_jwt lib req = Some (Some payload) →
  payload !! "sub" = Some sub →
  m !! id = Some business →
  business !! "owner_id" = Some owner_id →
  (sub = owner_id →
   JWT.delete_business lib id req m = ((BEmpty, 204%Z), delete id m) ∧
   JWT.get_business lib id req (delete id m) = JWT.no_business) ∧
  (sub ≠ owner_id → JWT.delete_business lib id req m = (JWT.no_business, m)) ∧
  status JWT.no_business = 403%Z.
Proof.
  intros Hv Hsub Hb Ho.
  unfold JWT.delete_business, JWT.get_business. rewrite Hv. simpl. rewrite Hb.
  rewrite (dict_truthy_lookup _ _ _ Ho). simpl. rewrite Hsub, Ho.
  rewrite lookup_delete_eq. split; [|split; [|done]].
  - intros ->. by rewrite decide_False by (by intros ?).
  - intros Hne. by rewrite decide_True.
Qed.

Lemma jwt_delete_business_effect_witness :
  JWT.delete_business Sample.lib 2 Sample.bob_request Sample.jwt_store2
    = ((BEmpty, 204%Z), delete 2%Z Sample.jwt_store2) ∧
  JWT.delete_business Sample.lib 1 Sample.bob_request Sample.jwt_store2
    = (JWT.no_business, Sample.jwt_store2).
Proof.
  split.
  - apply (jwt_delete_business_effect Sample.lib 2%Z Sample.bob_request
             Sample.jwt_store2 {[ "sub" := VStr "bob" ]} Sample.bob_business
             (VStr "bob") (VStr "bob")); by vm_compute.
  - apply (jwt_delete_business_effect Sample.lib 1%Z Sample.bob_request
             Sample.jwt_store2 {[ "sub" := VStr "bob" ]} Sample.alice_business
             (VStr "bob") (VStr "alice")); by vm_compute.
Defined.



(** X28: GET /businesses/{id} under the JWT variant answers 200 only to a
    verified token whose sub equals the stored business's owner_id, and then
    with the stored record, its id and its self link. *)
Theorem jwt_get_business_owner_only lib id req (m : gmap Z obj) (o : obj) code :
  JWT.get_business lib id req m = (BObj o, code) →
  ∃ (payload business : obj) sub,
    code = 200%Z ∧
    JWT.verify_jwt lib req = Some (Some payload) ∧ m !! id = Some business ∧
    payload !! "sub" = Some sub ∧ business !! "owner_id" = Some sub ∧
    o = <["self" := VStr (JWT.url_root req +:+ "businesses/" +:+ pretty id)]>
          (<["id" := VInt id]> business).
Proof.
  unfold JWT.get_business. destruct (JWT.verify_jwt lib req) as [[payload|]|]; [|done..].
  simpl. destruct (m !! id) as [business|]; [|done].
  destruct (negb _); [done|].
  destruct (payload !! "sub") as [sub|] eqn:Hs; [|done].
  destruct (business !! "owner_id") as [owner_id|] eqn:Ho; [|done].
  case_decide as Hd; [done|]. intros [= <- <-]. subst owner_id.
  by exists payload, business, sub.
Qed.

Lemma jwt_get_business_owner_only_witness :
  ∃ (business : obj) sub,
    Sample.jwt_store2 !! 2%Z = Some business ∧ business !! "owner_id" = Some sub.
Proof.
  destruct (JWT.get_business Sample.lib 2 Sample.bob_request Sample.jwt_store2)
    as [b code] eqn:Hg.
  assert (∃ o, b = BObj o) as [o ->].
  { vm_compute in Hg. injection Hg as <- _. by eexists. }
  destruct (jwt_get_business_owner_only Sample.lib 2%Z Sample.bob_request
              Sample.jwt_store2 o code Hg)
    as (payload & business & sub & _ & _ & Hb & _ & Ho & _).
  by exists business, sub.
Defined.

End jwt_further.
